(** * Task-Management-Clean-Architecture: repositories, password service
      and HTTP controllers, embedded in Rocq.

    The Go code talks to three things it does not define: the MongoDB driver
    (package [mongo]), the identifier generator [primitive.NewObjectID] and
    the [bcrypt] package.  Each of them is modelled below as the code sees
    it; the repository, password-service and controller functions are then
    transcribed statement by statement on top of that model. *)

From Stdlib Require Import Ascii String.
From stdpp Require Import base numbers strings list gmap.

Open Scope string_scope.

(** ** Package [primitive]: object identifiers *)

(** An [ObjectID] is a [[12]byte]; it is kept as the number its twelve bytes
    spell in big-endian order. *)
Definition ObjectID : Type := N.
Bind Scope N_scope with ObjectID.

Definition NilObjectID : ObjectID := 0%N.

(** [ObjectID.IsZero]. *)
Definition IsZero (id : ObjectID) : bool := bool_decide (id = NilObjectID).

(** [encoding/hex]: value of one hexadecimal digit, either case. *)
Definition fromHexChar (c : ascii) : option N :=
  let n := N_of_ascii c in
  if ((48 <=? n) && (n <=? 57))%N then Some (n - 48)%N
  else if ((97 <=? n) && (n <=? 102))%N then Some (n - 87)%N
  else if ((65 <=? n) && (n <=? 70))%N then Some (n - 55)%N
  else None.

Fixpoint hexDecode (s : string) (acc : N) : option N :=
  match s with
  | EmptyString => Some acc
  | String c rest =>
      match fromHexChar c with
      | Some d => hexDecode rest (16 * acc + d)%N
      | None => None
      end
  end.

(** [primitive.ObjectIDFromHex]: exactly 24 hexadecimal digits, anything else
    is an error ([None]). *)
Definition ObjectIDFromHex (s : string) : option ObjectID :=
  if Nat.eqb (String.length s) 24 then hexDecode s 0%N else None.

(** ** Package [domain] *)

(** [time.Time], as the instant it denotes: nanoseconds elapsed since the
    zero time (January 1, year 1, 00:00:00 UTC). *)
Definition Time : Type := Z.
Bind Scope Z_scope with Time.

(** [Time.IsZero]. *)
Definition TimeIsZero (t : Time) : bool := bool_decide (t = 0%Z).

(** [domain.Task] (the struct is printed in docs/api_documentation.md). *)
Record Task : Type := mkTask {
  ID : ObjectID;
  Title : string;
  Description : string;
  DueDate : Time;
  Status : string
}.

(** Modelled from the spec: [domain.User] is declared in the Domain package,
    which is not among the sources.  The fields are the ones the code reads
    ([user.ID], [user.Username], [user.Role]) plus the stored password hash
    of spec section 3. *)
Record User : Type := mkUser {
  UserID : ObjectID;
  Username : string;
  Password : string;
  Role : string
}.

(** Modelled from the spec: [domain.Credentials], the login request body
    (username and plaintext password). *)
Record Credentials : Type := mkCredentials {
  CredUsername : string;
  CredPassword : string
}.

(** Go [error] values that reach the code: the sentinels of package
    [domain], the driver's [mongo.ErrNoDocuments], a duplicate-key write
    error, any other driver error (time-out, network), [errors.New], and the
    errors of package [bcrypt] ([ErrSyntax] is [strconv.Atoi]'s, [ErrSaltDecode]
    a salt that is not base64, [ErrRandRead] a failed read of [rand.Reader]). *)
Inductive error : Type :=
| ErrInvalidTaskID
| ErrTaskNotFound
| ErrUserExists
| ErrUserNotFound
| ErrInvalidCredentials
| ErrNoDocuments
| ErrDuplicateKey
| ErrDriver (msg : string)
| ErrorString (msg : string)
| ErrMismatchedHashAndPassword
| ErrHashTooShort
| ErrPasswordTooLong
| InvalidHashPrefixError
| HashVersionTooNewError
| InvalidCostError
| ErrSyntax
| ErrSaltDecode
| ErrRandRead.

#[global] Instance error_eq_dec : EqDecision error.
Proof. solve_decision. Defined.

#[global] Instance Task_eq_dec : EqDecision Task.
Proof. solve_decision. Defined.

#[global] Instance User_eq_dec : EqDecision User.
Proof. solve_decision. Defined.

(** [mongo.IsDuplicateKeyError]. *)
Definition IsDuplicateKeyError (e : error) : bool :=
  match e with ErrDuplicateKey => true | _ => false end.

(** A Go pair [(value, error)] in which exactly one side is set. *)
Inductive result (A : Type) : Type :=
| Ok (a : A)
| Err (e : error).
Arguments Ok {A} a.
Arguments Err {A} e.

(** A Go slice: [nil], or a backing array with its elements. *)
Inductive slice (A : Type) : Type :=
| NilSlice
| Slice (elems : list A).
Arguments NilSlice {A}.
Arguments Slice {A} elems.

Definition len {A : Type} (s : slice A) : nat :=
  match s with NilSlice => 0 | Slice l => length l end.

Definition isNil {A : Type} (s : slice A) : bool :=
  match s with NilSlice => true | Slice _ => false end.

(** ** The world outside the process *)

(** Driver calls, as they are logged. *)
Inductive call : Type :=
| CallInsertOne
| CallDeleteOne
| CallFind
| CallCursorAll
| CallFindOne
| CallFindOneAndUpdate.

(** A BSON value put in an update document. *)
Inductive bson : Type :=
| BString (s : string)
| BDateTime (t : Time).

(** A BSON date counts whole milliseconds: this is the instant a
    [time.Time] denotes once the driver has written it to the database, and
    what is read back.  (The Unix epoch lies a whole number of milliseconds
    after the zero time, so rounding down does not depend on the origin.) *)
Definition bsonDate (t : Time) : Time := (t / 1000000 * 1000000)%Z.

(** A task as the collection holds it: the due date is a BSON date, the
    identifier and the strings are kept as they are. *)
Definition bsonTask (t : Task) : Task :=
  mkTask (ID t) (Title t) (Description t) (bsonDate (DueDate t)) (Status t).

(** The database and the generator of identifiers.
    - [tasks], [users]: the two collections, documents by [_id] (MongoDB
      keeps [_id] unique in every collection);
    - [unique_usernames]: whether the [users] collection carries a unique
      index on [username] (main.go creates none itself);
    - [link]: what happens to the coming round trips to the server, oldest
      first; [Some msg] is a call that fails with a driver error (time-out,
      connection lost), an exhausted list means every call gets through;
    - [calls]: the driver calls issued so far, newest first;
    - [oid_gen], [oid_used]: [primitive.NewObjectID] hands out
      [oid_gen 0], [oid_gen 1], ... *)
Record World : Type := mkWorld {
  tasks : gmap ObjectID Task;
  users : gmap ObjectID User;
  unique_usernames : bool;
  link : list (option string);
  calls : list call;
  oid_gen : nat -> ObjectID;
  oid_used : nat
}.

Definition with_tasks (m : gmap ObjectID Task) (w : World) : World :=
  mkWorld m (users w) (unique_usernames w) (link w) (calls w) (oid_gen w) (oid_used w).

Definition with_users (m : gmap ObjectID User) (w : World) : World :=
  mkWorld (tasks w) m (unique_usernames w) (link w) (calls w) (oid_gen w) (oid_used w).

Definition with_link (l : list (option string)) (w : World) : World :=
  mkWorld (tasks w) (users w) (unique_usernames w) l (calls w) (oid_gen w) (oid_used w).

Definition with_calls (l : list call) (w : World) : World :=
  mkWorld (tasks w) (users w) (unique_usernames w) (link w) l (oid_gen w) (oid_used w).

Definition with_oid_used (n : nat) (w : World) : World :=
  mkWorld (tasks w) (users w) (unique_usernames w) (link w) (calls w) (oid_gen w) n.

(** Computations that read and change a state [S]; [M] is the case of the
    repositories, whose state is the world. *)
Definition state (S A : Type) : Type := S -> S * A.

Definition ret {S A : Type} (a : A) : state S A := fun w => (w, a).

Definition bind {S A B : Type} (c : state S A) (k : A -> state S B) : state S B :=
  fun w => let '(w', a) := c w in k a w'.

Abbreviation M := (state World).

Declare Scope go_scope.
Delimit Scope go_scope with go.
Notation "x <- c ;; k" := (bind c (fun x => k))
  (at level 100, c at next level, right associativity) : go_scope.
Open Scope go_scope.

(** [primitive.NewObjectID]. *)
Definition NewObjectID : M ObjectID :=
  fun w => (with_oid_used (S (oid_used w)) w, oid_gen w (oid_used w)).

(** One round trip to the server: the call is logged and either gets
    through ([None]) or fails with a driver error. *)
Definition roundTrip (c : call) : M (option error) :=
  fun w =>
    let w1 := with_calls (c :: calls w) w in
    match link w1 with
    | [] => (w1, None)
    | outcome :: rest => (with_link rest w1, ErrDriver <$> outcome)
    end.

(** ** Package [mongo]: the collection methods the repositories call *)

(** [tasks.InsertOne(ctx, task)]: the struct is encoded as a document,
    the due date as a BSON date. *)
Definition tasksInsertOne (task : Task) : M (option error) :=
  e <- roundTrip CallInsertOne ;;
  match e with
  | Some err => ret (Some err)
  | None => fun w =>
      match tasks w !! ID task with
      | Some _ => (w, Some ErrDuplicateKey)
      | None => (with_tasks (<[ID task := bsonTask task]> (tasks w)) w, None)
      end
  end.

(** [tasks.DeleteOne(ctx, bson.M{"_id": objID})]: the number of documents
    deleted, or an error. *)
Definition tasksDeleteOne (objID : ObjectID) : M (result nat) :=
  e <- roundTrip CallDeleteOne ;;
  match e with
  | Some err => ret (Err err)
  | None => fun w =>
      match tasks w !! objID with
      | Some _ => (with_tasks (delete objID (tasks w)) w, Ok 1)
      | None => (w, Ok 0)
      end
  end.

(** [tasks.Find(ctx, bson.M{})]: a cursor over every document. *)
Definition tasksFind : M (result (list Task)) :=
  e <- roundTrip CallFind ;;
  match e with
  | Some err => ret (Err err)
  | None => fun w => (w, Ok (map_to_list (tasks w)).*2)
  end.

(** [cursor.All(ctx, &allTasks)] on a nil [allTasks]: the documents are
    appended to the slice, which therefore stays nil when there is none. *)
Definition cursorAll (cursor : list Task) : M (result (slice Task)) :=
  e <- roundTrip CallCursorAll ;;
  match e with
  | Some err => ret (Err err)
  | None =>
      match cursor with
      | [] => ret (Ok NilSlice)
      | _ => ret (Ok (Slice cursor))
      end
  end.

(** [tasks.FindOne(ctx, bson.M{"_id": objID}).Decode(&task)]. *)
Definition tasksFindOne (objID : ObjectID) : M (result Task) :=
  e <- roundTrip CallFindOne ;;
  match e with
  | Some err => ret (Err err)
  | None => fun w =>
      match tasks w !! objID with
      | Some task => (w, Ok task)
      | None => (w, Err ErrNoDocuments)
      end
  end.

(** The effect of [{"$set": setFields}] on a task document; a date is
    written as a BSON date. *)
Definition applySet (setFields : gmap string bson) (t : Task) : Task :=
  {| ID := ID t;
     Title := match setFields !! "title" with
              | Some (BString s) => s | _ => Title t end;
     Description := match setFields !! "description" with
                    | Some (BString s) => s | _ => Description t end;
     DueDate := match setFields !! "due_date" with
                | Some (BDateTime d) => bsonDate d | _ => DueDate t end;
     Status := match setFields !! "status" with
               | Some (BString s) => s | _ => Status t end |}.

(** [tasks.FindOneAndUpdate(ctx, bson.M{"_id": objID}, {"$set": setFields},
    opts).Decode(&updatedTask)] with [opts] asking for the document as it is
    after the update. *)
Definition tasksFindOneAndUpdate (objID : ObjectID)
    (setFields : gmap string bson) : M (result Task) :=
  e <- roundTrip CallFindOneAndUpdate ;;
  match e with
  | Some err => ret (Err err)
  | None => fun w =>
      match tasks w !! objID with
      | Some old =>
          let new := applySet setFields old in
          (with_tasks (<[objID := new]> (tasks w)) w, Ok new)
      | None => (w, Err ErrNoDocuments)
      end
  end.

(** Whether a user document clashes with the collection's unique keys:
    [_id] always, [username] when the index exists. *)
Definition usersDuplicate (user : User) (w : World) : bool :=
  bool_decide (is_Some (users w !! UserID user))
  || (unique_usernames w
      && bool_decide (map_Exists (fun _ u => Username u = Username user) (users w))).

(** [users.InsertOne(ctx, user)]. *)
Definition usersInsertOne (user : User) : M (option error) :=
  e <- roundTrip CallInsertOne ;;
  match e with
  | Some err => ret (Some err)
  | None => fun w =>
      if usersDuplicate user w then (w, Some ErrDuplicateKey)
      else (with_users (<[UserID user := user]> (users w)) w, None)
  end.

(** ** Package [repositories] (src/unnamed/part_000) *)

(** [taskRepository.CreateTask]. *)
Definition CreateTask (task : Task) : M (result Task) :=
  newID <- NewObjectID ;;
  let task := mkTask newID (Title task) (Description task) (DueDate task) (Status task) in
  err <- tasksInsertOne task ;;
  match err with
  | Some e => ret (Err e)
  | None => ret (Ok task)
  end.

(** [taskRepository.DeleteTask]. *)
Definition DeleteTask (taskID : string) : M (option error) :=
  match ObjectIDFromHex taskID with
  | None => ret (Some ErrInvalidTaskID)
  | Some objID =>
      r <- tasksDeleteOne objID ;;
      match r with
      | Err e => ret (Some e)
      | Ok deletedCount =>
          if Nat.eqb deletedCount 0 then ret (Some ErrTaskNotFound)
          else ret None
      end
  end.

(** [taskRepository.GetAllTasks]. *)
Definition GetAllTasks : M (result (slice Task)) :=
  r <- tasksFind ;;
  match r with
  | Err e => ret (Err e)
  | Ok cursor =>
      r <- cursorAll cursor ;;
      match r with
      | Err e => ret (Err e)
      | Ok allTasks =>
          if isNil allTasks then ret (Ok (Slice []))
          else ret (Ok allTasks)
      end
  end.

(** [taskRepository.GetTaskByID]. *)
Definition GetTaskByID (taskID : string) : M (result Task) :=
  match ObjectIDFromHex taskID with
  | None => ret (Err ErrInvalidTaskID)
  | Some objID =>
      r <- tasksFindOne objID ;;
      match r with
      | Err e =>
          if bool_decide (e = ErrNoDocuments) then ret (Err ErrTaskNotFound)
          else ret (Err e)
      | Ok task => ret (Ok task)
      end
  end.

(** The [setFields] map that [UpdateTask] fills in: a key for every field of
    the update that is set. *)
Definition setFieldsOf (taskUpdate : Task) : gmap string bson :=
  let setFields : gmap string bson := ∅ in
  let setFields :=
    if bool_decide (Title taskUpdate ≠ "")
    then <["title" := BString (Title taskUpdate)]> setFields else setFields in
  let setFields :=
    if bool_decide (Description taskUpdate ≠ "")
    then <["description" := BString (Description taskUpdate)]> setFields else setFields in
  let setFields :=
    if negb (TimeIsZero (DueDate taskUpdate))
    then <["due_date" := BDateTime (DueDate taskUpdate)]> setFields else setFields in
  let setFields :=
    if bool_decide (Status taskUpdate ≠ "")
    then <["status" := BString (Status taskUpdate)]> setFields else setFields in
  setFields.

(** [taskRepository.UpdateTask]. *)
Definition UpdateTask (taskID : string) (taskUpdate : Task) : M (result Task) :=
  match ObjectIDFromHex taskID with
  | None => ret (Err ErrInvalidTaskID)
  | Some objID =>
      let setFields := setFieldsOf taskUpdate in
      if Nat.eqb (size setFields) 0
      then ret (Err (ErrorString "no valid fields provided for update"))
      else
        r <- tasksFindOneAndUpdate objID setFields ;;
        match r with
        | Err e =>
            if bool_decide (e = ErrNoDocuments) then ret (Err ErrTaskNotFound)
            else ret (Err e)
        | Ok updatedTask => ret (Ok updatedTask)
        end
  end.

(** [userRepository.CreateUser].  The function writes the identifier into
    the caller's struct, so the struct as the call leaves it is returned
    next to the error. *)
Definition CreateUser (user : User) : M (User * option error) :=
  user <- (if IsZero (UserID user)
           then newID <- NewObjectID ;;
                ret (mkUser newID (Username user) (Password user) (Role user))
           else ret user) ;;
  err <- usersInsertOne user ;;
  match err with
  | Some e =>
      if IsDuplicateKeyError e then ret (user, Some ErrUserExists)
      else ret (user, Some e)
  | None => ret (user, None)
  end.

(** ** Package [bcrypt] (golang.org/x/crypto), as far as the password
       service depends on it *)

Section Bcrypt.

(** The Blowfish part of bcrypt, left open: from the cost, the encoded salt
    and the key bytes that the Blowfish key schedule reads, the encoded
    digest; [None] when the salt does not decode. *)
Variable eksblowfish : nat -> list ascii -> list ascii -> option (list ascii).

Definition MinCost : nat := 4.
Definition MaxCost : nat := 31.
Definition DefaultCost : nat := 10.

(** The key schedule fills eighteen 32-bit words from the key, starting
    over at the end of the key: these 72 bytes are all it reads of it. *)
Definition keyStream (key : list ascii) : list ascii :=
  map (fun i => nth (i mod length key) key zero) (seq 0 72).

(** [bcrypt(password, cost, salt)]: the key is the password followed by a
    zero byte. *)
Definition bcryptDigest (password : list ascii) (cost : nat)
    (salt : list ascii) : result (list ascii) :=
  match eksblowfish cost salt (keyStream (password ++ [zero])) with
  | Some digest => Ok digest
  | None => Err ErrSaltDecode
  end.

(** [type hashed]; a [minor] of zero means there is none. *)
Record hashed : Type := mkHashed {
  hash : list ascii;
  salt : list ascii;
  cost : nat;
  major : ascii;
  minor : ascii
}.

(** [copy] into a zeroed window of [n] bytes. *)
Definition fit (n : nat) (bs : list ascii) : list ascii :=
  take n (bs ++ replicate n zero).

Definition digit (n : nat) : ascii := ascii_of_nat (48 + n).

(** [fmt.Sprintf("%02d", cost)] for a cost below 100. *)
Definition twoDigits (n : nat) : list ascii := [digit (n / 10); digit (n mod 10)].

(** [hashed.Hash]: ['$'], version, ['$'], cost, ['$'], 22 bytes of salt,
    31 bytes of digest. *)
Definition hashedHash (p : hashed) : list ascii :=
  ["$"%char; major p]
  ++ (if bool_decide (minor p = zero) then [] else [minor p])
  ++ ["$"%char] ++ twoDigits (cost p) ++ ["$"%char]
  ++ fit 22 (salt p) ++ fit 31 (hash p).

Definition checkCost (c : nat) : option error :=
  if ((c <? MinCost) || (MaxCost <? c))%nat then Some InvalidCostError else None.

Definition digitValue (c : ascii) : option nat :=
  let n := nat_of_ascii c in
  if ((48 <=? n) && (n <=? 57))%nat then Some (n - 48) else None.

(** [strconv.Atoi] on the two cost bytes; a negative number is of no use
    to [checkCost] and is reported as [Some None]. *)
Definition atoi2 (a b : ascii) : option (option nat) :=
  match digitValue a, digitValue b with
  | Some x, Some y => Some (Some (10 * x + y))
  | None, Some y =>
      if bool_decide (a = "+"%char) then Some (Some y)
      else if bool_decide (a = "-"%char) then Some (if (y =? 0)%nat then Some 0 else None)
      else None
  | _, None => None
  end.

(** [newFromHash]: split a stored hash into version, cost, salt, digest. *)
Definition newFromHash (hashedSecret : list ascii) : result hashed :=
  if (length hashedSecret <? 59)%nat then Err ErrHashTooShort
  else
    match hashedSecret with
    | c0 :: c1 :: c2 :: rest =>
        if negb (bool_decide (c0 = "$"%char)) then Err InvalidHashPrefixError
        else if (nat_of_ascii "2"%char <? nat_of_ascii c1)%nat then Err HashVersionTooNewError
        else
          let '(minorByte, rest) :=
            if bool_decide (c2 = "$"%char) then (zero, rest) else (c2, drop 1 rest) in
          match rest with
          | d1 :: d2 :: rest =>
              match atoi2 d1 d2 with
              | None => Err ErrSyntax
              | Some None => Err InvalidCostError
              | Some (Some c) =>
                  match checkCost c with
                  | Some e => Err e
                  | None =>
                      let rest := drop 1 rest in
                      Ok (mkHashed (drop 22 rest) (take 22 rest) c c1 minorByte)
                  end
              end
          | _ => Err ErrHashTooShort
          end
    | _ => Err ErrHashTooShort
    end.

(** [newFromPassword] followed by [Hash], that is [GenerateFromPassword],
    with what [rand.Reader] yields (already encoded) as an argument. *)
Definition GenerateFromPassword (rnd : result (list ascii))
    (password : list ascii) (cost : nat) : result (list ascii) :=
  if (72 <? length password)%nat then Err ErrPasswordTooLong
  else
    let cost := if (cost <? MinCost)%nat then DefaultCost else cost in
    match checkCost cost with
    | Some e => Err e
    | None =>
        match rnd with
        | Err e => Err e
        | Ok encodedSalt =>
            match bcryptDigest password cost encodedSalt with
            | Err e => Err e
            | Ok digest => Ok (hashedHash (mkHashed digest encodedSalt cost "2"%char "a"%char))
            end
        end
    end.

(** [CompareHashAndPassword]: [None] is a nil error. *)
Definition CompareHashAndPassword (hashedPassword password : list ascii) : option error :=
  match newFromHash hashedPassword with
  | Err e => Some e
  | Ok p =>
      match bcryptDigest password (cost p) (salt p) with
      | Err e => Some e
      | Ok otherHash =>
          let otherP := mkHashed otherHash (salt p) (cost p) (major p) (minor p) in
          if bool_decide (hashedHash p = hashedHash otherP) then None
          else Some ErrMismatchedHashAndPassword
      end
  end.

(** ** Package [infrastructure] (src/Infrastructure/password_service.go) *)

(** [passwordService.HashPassword]. *)
Definition HashPassword (rnd : result (list ascii)) (password : string)
    : string * option error :=
  match GenerateFromPassword rnd (list_ascii_of_string password) DefaultCost with
  | Ok bytes => (string_of_list_ascii bytes, None)
  | Err e => ("", Some e)
  end.

(** [passwordService.CheckPassword]. *)
Definition CheckPassword (hashed plain : string) : bool :=
  match CompareHashAndPassword (list_ascii_of_string hashed) (list_ascii_of_string plain) with
  | None => true
  | Some _ => false
  end.

End Bcrypt.

(** ** Package [controllers] (src/Delivery/main.go) *)

(** What a handler hands to [c.JSON]: Go values, before encoding. *)
#[warnings="-register-all"]
Inductive value : Type :=
| VString (s : string)
| VErrorText (e : error)
| VObjectID (id : ObjectID)
| VTask (t : Task)
| VTasks (ts : slice Task)
| VH (fields : list (string * value)).

(** [encoding/json] writes a nil slice as [null] and any other as an array. *)
Definition encodesAsNull (v : value) : bool :=
  match v with
  | VTasks ts => isNil ts
  | _ => false
  end.

(** How a handler ends: with a response, or in a panic (a nil pointer
    dereferenced). *)
Inductive outcome : Type :=
| Respond (status : nat) (payload : value)
| Panic.

Definition StatusOK : nat := 200.
Definition StatusCreated : nat := 201.
Definition StatusBadRequest : nat := 400.
Definition StatusUnauthorized : nat := 401.
Definition StatusInternalServerError : nat := 500.

(** A request body as [encoding/json] reads it into a struct: a decoding
    error with its text, or the struct. *)
Inductive body (A : Type) : Type :=
| Undecodable (msg : string)
| Decoded (a : A).
Arguments Undecodable {A} msg.
Arguments Decoded {A} a.

(** [strings.Contains]. *)
Fixpoint Contains (s substr : string) : bool :=
  String.prefix substr s
  || match s with
     | EmptyString => false
     | String _ rest => Contains rest substr
     end.

(** The validator tag of [Task.Status]: [oneof=pending in_progress completed]. *)
Definition oneofStatus (s : string) : bool :=
  bool_decide (s = "pending") || bool_decide (s = "in_progress")
  || bool_decide (s = "completed").

(** [c.ShouldBindJSON(&task)]: decoding, then the struct's validator tags;
    the error is given by its text. *)
Definition ShouldBindJSONTask (b : body Task) : string + Task :=
  match b with
  | Undecodable msg => inl msg
  | Decoded task =>
      if oneofStatus (Status task) then inr task
      else inl "Key: 'Task.Status' Error:Field validation for 'Status' failed on the 'oneof' tag"
  end.

Section Controllers.

(** The state the use cases work on. *)
Variable S : Type.

(** [usecases.TaskUseCase] and [usecases.UserUseCase], the interfaces the
    controllers hold; of the second, [Login] returns a token, a pointer to
    the user (possibly nil) and an error. *)
Record TaskUseCase : Type := mkTaskUseCase {
  ucCreateTask : Task -> state S (result Task);
  ucGetAllTasks : state S (slice Task * option error)
}.

Record UserUseCase : Type := mkUserUseCase {
  ucLogin : Credentials -> state S (string * option User * option error)
}.

(** [TaskController.CreateTask]. *)
Definition TaskController_CreateTask (uc : TaskUseCase) (b : body Task)
    : state S outcome :=
  match ShouldBindJSONTask b with
  | inl msg =>
      if Contains msg "numeric literal"
      then ret (Respond StatusBadRequest
             (VH [("error", VString "Invalid date format. Use ISO 8601 format like '2023-12-31T00:00:00Z'");
                  ("example", VH [("due_date", VString "2025-07-22T00:00:00Z")])]))
      else ret (Respond StatusBadRequest (VH [("error", VString msg)]))
  | inr task =>
      r <- ucCreateTask uc task ;;
      match r with
      | Err e => ret (Respond StatusBadRequest (VH [("error", VErrorText e)]))
      | Ok createdTask => ret (Respond StatusCreated (VTask createdTask))
      end
  end.

(** [TaskController.GetAllTasks]. *)
Definition TaskController_GetAllTasks (uc : TaskUseCase) : state S outcome :=
  r <- ucGetAllTasks uc ;;
  match r with
  | (_, Some e) => ret (Respond StatusInternalServerError (VH [("error", VErrorText e)]))
  | (tasks, None) =>
      if Nat.eqb (len tasks) 0 then ret (Respond StatusOK (VTasks (Slice [])))
      else ret (Respond StatusOK (VTasks tasks))
  end.

(** [UserController.Login]; [b] is the outcome of [c.ShouldBindJSON(&creds)]. *)
Definition UserController_Login (uc : UserUseCase) (b : string + Credentials)
    : state S outcome :=
  match b with
  | inl msg => ret (Respond StatusBadRequest (VH [("error", VString msg)]))
  | inr creds =>
      r <- ucLogin uc creds ;;
      match r with
      | (_, _, Some e) =>
          if bool_decide (e = ErrInvalidCredentials)
          then ret (Respond StatusUnauthorized (VH [("error", VErrorText e)]))
          else ret (Respond StatusInternalServerError (VH [("error", VErrorText e)]))
      | (_, None, None) => ret Panic
      | (token, Some user, None) =>
          ret (Respond StatusOK
                 (VH [("token", VString token);
                      ("user", VH [("id", VObjectID (UserID user));
                                   ("username", VString (Username user));
                                   ("role", VString (Role user))])]))
      end
  end.

End Controllers.

Arguments mkTaskUseCase {S}.
Arguments ucCreateTask {S}.
Arguments ucGetAllTasks {S}.
Arguments mkUserUseCase {S}.
Arguments ucLogin {S}.
Arguments TaskController_CreateTask {S}.
Arguments TaskController_GetAllTasks {S}.
Arguments UserController_Login {S}.

(** ** Vocabulary of the statements *)

(** The driver error, if any, that the next round trip runs into. *)
Definition nextCallFails (w : World) : option string :=
  match link w with
  | outcome :: _ => outcome
  | [] => None
  end.

(** The world once a round trip [c] got through. *)
Definition afterCall (c : call) (w : World) : World :=
  with_link (tail (link w)) (with_calls (c :: calls w) w).

(** An update that sets none of the four fields. *)
Definition noFields (partial : Task) : Prop :=
  Title partial = "" /\ Description partial = "" /\ DueDate partial = 0%Z
  /\ Status partial = "".

(** The error [UpdateTask] makes with [errors.New]. *)
Definition ErrNoFieldsProvided : error :=
  ErrorString "no valid fields provided for update".

(** Spec section 4.5, merge semantics of [Update]: each of title,
    description, dueDate and status is overwritten only if the field of
    [partial] is non-empty (non-zero); the identity stays.  The due date that
    overwrites is the one of [partial] as a BSON date. *)
Definition mergeTask (stored partial : Task) : Task :=
  {| ID := ID stored;
     Title := if decide (Title partial = "") then Title stored else Title partial;
     Description :=
       if decide (Description partial = "") then Description stored
       else Description partial;
     DueDate :=
       if decide (DueDate partial = 0%Z) then DueDate stored
       else bsonDate (DueDate partial);
     Status := if decide (Status partial = "") then Status stored else Status partial |}.

(** A database with nothing in it, a link that works, identifiers counted
    from one. *)
Definition emptyWorld : World :=
  mkWorld ∅ ∅ true [] [] (fun n => N.of_nat (S n)) 0.

(** The first [n] round trips to come all get through. *)
Definition linkUp (n : nat) (w : World) : Prop :=
  Forall (fun outcome => outcome = None) (take n (link w)).

(** The identifier of the task in docs/api_documentation.md, a task under
    it, and a database that holds just that task. *)
Definition sampleHex : string := "6878d8c9bab227206acc35e3".

Definition sampleID : ObjectID :=
  Eval vm_compute in default NilObjectID (ObjectIDFromHex sampleHex).

Definition sampleTask : Task :=
  mkTask sampleID "Implement unit testing" "Tests for all layers" 1753466400 "pending".

Definition sampleWorld : World := with_tasks {[sampleID := sampleTask]} emptyWorld.

(** A password of 72 bytes, the longest [GenerateFromPassword] takes, and
    the same password with one more byte. *)
Definition longPassword : string :=
  "aaaaaaaaaaaaaaaaaaaaaaaaaaaaaaaaaaaaaaaaaaaaaaaaaaaaaaaaaaaaaaaaaaaaaaaa".

Definition longerPassword : string := longPassword ++ "b".

(** For running the password service in examples: an encoded salt, and a
    stand-in for the Blowfish core whose digest is the first 31 key bytes. *)
Definition sampleSalt : list ascii := list_ascii_of_string "N9qo8uLOickgx2ZMRZoMye".

Definition sampleCore (c : nat) (encodedSalt key : list ascii) : option (list ascii) :=
  Some (take 31 key).

(** ** The rest of the user repository (src/unnamed/part_000) *)

(** [users.FindOne(ctx, bson.M{"username": username}).Decode(&user)]: the
    first document with that username, in the order in which the collection
    yields its documents. *)
Definition usersFindOneByUsername (username : string) : M (result User) :=
  e <- roundTrip CallFindOne ;;
  match e with
  | Some err => ret (Err err)
  | None => fun w =>
      match filter (fun u => Username u = username) (map_to_list (users w)).*2 with
      | user :: _ => (w, Ok user)
      | [] => (w, Err ErrNoDocuments)
      end
  end.

(** [users.FindOne(ctx, bson.M{"_id": userID}).Decode(&user)]. *)
Definition usersFindOneByID (userID : ObjectID) : M (result User) :=
  e <- roundTrip CallFindOne ;;
  match e with
  | Some err => ret (Err err)
  | None => fun w =>
      match users w !! userID with
      | Some user => (w, Ok user)
      | None => (w, Err ErrNoDocuments)
      end
  end.

(** [userRepository.GetByUsername]. *)
Definition GetByUsername (username : string) : M (result User) :=
  r <- usersFindOneByUsername username ;;
  match r with
  | Err e =>
      if bool_decide (e = ErrNoDocuments) then ret (Err ErrUserNotFound)
      else ret (Err e)
  | Ok user => ret (Ok user)
  end.

(** [userRepository.GetUserById]. *)
Definition GetUserById (userID : ObjectID) : M (result User) :=
  r <- usersFindOneByID userID ;;
  match r with
  | Err e =>
      if bool_decide (e = ErrNoDocuments) then ret (Err ErrUserNotFound)
      else ret (Err e)
  | Ok user => ret (Ok user)
  end.

(** ** The rest of the controllers (src/Delivery/main.go) *)

Definition StatusNotFound : nat := 404.
Definition StatusConflict : nat := 409.

(** The answer of the controllers to an identifier that is not an ObjectID. *)
Definition invalidID (what : string) : outcome :=
  Respond StatusBadRequest (VH [("error", VString ("Invalid " ++ what ++ " ID format"))]).

Section MoreControllers.

(** The state the use cases work on. *)
Variable S : Type.

(** [TaskController.DeleteTask]; [ucDeleteTask] is the method [DeleteTask] of
    the use case the controller holds. *)
Definition TaskController_DeleteTask (ucDeleteTask : string -> state S (option error))
    (id : string) : state S outcome :=
  match ObjectIDFromHex id with
  | None => ret (invalidID "task")
  | Some _ =>
      err <- ucDeleteTask id ;;
      match err with
      | Some e =>
          if bool_decide (e = ErrTaskNotFound)
          then ret (Respond StatusNotFound (VH [("error", VErrorText e)]))
          else ret (Respond StatusInternalServerError (VH [("error", VErrorText e)]))
      | None => ret (Respond StatusOK (VH [("message", VString "task deleted successfully")]))
      end
  end.

(** [TaskController.GetTaskByID]. *)
Definition TaskController_GetTaskByID (ucGetTaskByID : string -> state S (result Task))
    (id : string) : state S outcome :=
  match ObjectIDFromHex id with
  | None => ret (invalidID "task")
  | Some _ =>
      r <- ucGetTaskByID id ;;
      match r with
      | Err e =>
          if bool_decide (e = ErrTaskNotFound)
          then ret (Respond StatusNotFound (VH [("error", VErrorText e)]))
          else ret (Respond StatusInternalServerError (VH [("error", VErrorText e)]))
      | Ok task => ret (Respond StatusOK (VTask task))
      end
  end.

(** [TaskController.UpdateTask]. *)
Definition TaskController_UpdateTask
    (ucUpdateTask : string -> Task -> state S (result Task))
    (id : string) (b : body Task) : state S outcome :=
  match ObjectIDFromHex id with
  | None => ret (invalidID "task")
  | Some _ =>
      match ShouldBindJSONTask b with
      | inl msg =>
          if Contains msg "numeric literal"
          then ret (Respond StatusBadRequest
                 (VH [("error", VString "Invalid date format. Use ISO 8601 format like '2025-7-16T00:00:00Z'");
                      ("example", VH [("due_date", VString "2025-07-22T00:00:00Z")])]))
          else ret (Respond StatusBadRequest (VH [("error", VString msg)]))
      | inr task =>
          r <- ucUpdateTask id task ;;
          match r with
          | Err e =>
              if bool_decide (e = ErrTaskNotFound)
              then ret (Respond StatusNotFound (VH [("error", VErrorText e)]))
              else ret (Respond StatusBadRequest (VH [("error", VErrorText e)]))
          | Ok updatedTask =>
              ret (Respond StatusOK
                     (VH [("message", VString "task updated successfully");
                          ("updated_task", VTask updatedTask)]))
          end
      end
  end.

(** [UserController.Register]; [b] is the outcome of
    [c.ShouldBindJSON(&user)]. *)
Definition UserController_Register (ucRegister : User -> state S (option error))
    (b : string + User) : state S outcome :=
  match b with
  | inl msg => ret (Respond StatusBadRequest (VH [("error", VString msg)]))
  | inr user =>
      err <- ucRegister user ;;
      match err with
      | Some e =>
          if bool_decide (e = ErrUserExists)
          then ret (Respond StatusConflict (VH [("error", VErrorText e)]))
          else ret (Respond StatusBadRequest (VH [("error", VErrorText e)]))
      | None =>
          ret (Respond StatusCreated (VH [("message", VString "user created successfully")]))
      end
  end.

(** [UserController.PromoteToAdmin]. *)
Definition UserController_PromoteToAdmin
    (ucPromoteToAdmin : string -> state S (option error))
    (userID : string) : state S outcome :=
  match ObjectIDFromHex userID with
  | None => ret (invalidID "user")
  | Some _ =>
      err <- ucPromoteToAdmin userID ;;
      match err with
      | Some e =>
          if bool_decide (e = ErrUserNotFound)
          then ret (Respond StatusNotFound (VH [("error", VErrorText e)]))
          else ret (Respond StatusBadRequest (VH [("error", VErrorText e)]))
      | None =>
          ret (Respond StatusOK
                 (VH [("message", VString "user promoted to admin successfully")]))
      end
  end.

End MoreControllers.

Arguments TaskController_DeleteTask {S}.
Arguments TaskController_GetTaskByID {S}.
Arguments TaskController_UpdateTask {S}.
Arguments UserController_Register {S}.
Arguments UserController_PromoteToAdmin {S}.

(** ** Vocabulary of the further statements *)

(** Every task document sits under its own identifier. *)
Definition idsAreKeys (w : World) : Prop :=
  forall (id : ObjectID) (t : Task), tasks w !! id = Some t -> ID t = id.

(** No two user documents share a username. *)
Definition usernamesUnique (w : World) : Prop :=
  forall (id1 id2 : ObjectID) (u1 u2 : User),
    users w !! id1 = Some u1 -> users w !! id2 = Some u2 ->
    Username u1 = Username u2 -> id1 = id2.

(** The status of a response; a panic has none. *)
Definition statusOf (o : outcome) : option nat :=
  match o with
  | Respond status _ => Some status
  | Panic => None
  end.

(** * Properties *)

(** ** The driver *)

Lemma roundTrip_through (c : call) (w : World) :
  nextCallFails w = None -> roundTrip c w = (afterCall c w, None).
Proof.
  destruct w as [ts us uq lk cs g n]; unfold nextCallFails, roundTrip, afterCall; simpl.
  destruct lk as [|o rest]; simpl; [done|]. by intros ->.
Qed.

Lemma roundTrip_fails (c : call) (w : World) (msg : string) :
  nextCallFails w = Some msg -> roundTrip c w = (afterCall c w, Some (ErrDriver msg)).
Proof.
  destruct w as [ts us uq lk cs g n]; unfold nextCallFails, roundTrip, afterCall; simpl.
  destruct lk as [|o rest]; simpl; [done|]. by intros ->.
Qed.

Lemma tasks_afterCall (c : call) (w : World) : tasks (afterCall c w) = tasks w.
Proof. done. Qed.

Lemma users_afterCall (c : call) (w : World) : users (afterCall c w) = users w.
Proof. done. Qed.

(** ** BSON dates *)

(** A BSON date is the last whole millisecond not after the instant. *)
Lemma bsonDate_floor (t : Time) :
  (bsonDate t <= t < bsonDate t + 1000000)%Z /\ (bsonDate t mod 1000000 = 0)%Z.
Proof.
  unfold bsonDate. split.
  - pose proof (Z.div_mod t 1000000 ltac:(lia)) as Hdiv.
    pose proof (Z.mod_pos_bound t 1000000 ltac:(lia)) as Hmod. lia.
  - apply Z.mod_mul. lia.
Qed.

Lemma bsonDate_whole (t : Time) : (t mod 1000000 = 0)%Z -> bsonDate t = t.
Proof.
  intros Hmod. unfold bsonDate.
  pose proof (Z.div_mod t 1000000 ltac:(lia)) as Hdiv. lia.
Qed.

Lemma bsonDate_idempotent (t : Time) : bsonDate (bsonDate t) = bsonDate t.
Proof. apply bsonDate_whole, bsonDate_floor. Qed.

(** ** [UpdateTask]: which fields are set *)

Lemma setFieldsOf_size_zero (partial : Task) :
  size (setFieldsOf partial) = 0 <-> noFields partial.
Proof.
  unfold setFieldsOf, noFields, TimeIsZero.
  destruct partial as [i t d due st]; simpl.
  destruct (decide (st = "")) as [->|Hst].
  2:{ rewrite (bool_decide_eq_true_2 _ Hst), map_size_empty_iff.
      split; [intros Hs; by apply insert_non_empty in Hs | tauto]. }
  destruct (decide (due = 0%Z)) as [->|Hdue].
  2:{ rewrite (bool_decide_eq_false_2 _ Hdue); simpl. rewrite map_size_empty_iff.
      split; [intros Hs; by apply insert_non_empty in Hs | tauto]. }
  destruct (decide (d = "")) as [->|Hd].
  2:{ rewrite (bool_decide_eq_true_2 _ Hd); simpl. rewrite map_size_empty_iff.
      split; [intros Hs; by apply insert_non_empty in Hs | tauto]. }
  destruct (decide (t = "")) as [->|Ht].
  2:{ rewrite (bool_decide_eq_true_2 _ Ht); simpl. rewrite map_size_empty_iff.
      split; [intros Hs; by apply insert_non_empty in Hs | tauto]. }
  simpl. split; [tauto | done].
Qed.

(** The update document has a key exactly for the fields that are set. *)
Lemma setFieldsOf_keys (partial : Task) :
  (is_Some (setFieldsOf partial !! "title") <-> Title partial <> "")
  /\ (is_Some (setFieldsOf partial !! "description") <-> Description partial <> "")
  /\ (is_Some (setFieldsOf partial !! "due_date") <-> DueDate partial <> 0%Z)
  /\ (is_Some (setFieldsOf partial !! "status") <-> Status partial <> "").
Proof.
  unfold setFieldsOf, TimeIsZero.
  destruct partial as [i t d due st]; simpl.
  destruct (decide (t = "")), (decide (d = "")), (decide (due = 0%Z)), (decide (st = ""));
    subst; simpl;
    rewrite ?(bool_decide_eq_true_2 (_ ≠ _)) by done;
    rewrite ?(bool_decide_eq_false_2 (_ = _)) by done; simpl.
  all: repeat split; intros H; try done; try (by destruct H as [? H]; vm_compute in H).
  all: by vm_compute.
Qed.

Lemma applySet_setFieldsOf (stored partial : Task) :
  applySet (setFieldsOf partial) stored = mergeTask stored partial.
Proof.
  unfold applySet, setFieldsOf, mergeTask, TimeIsZero.
  destruct partial as [i t d due st], stored as [i' t' d' due' st']; simpl.
  destruct (decide (t = "")), (decide (d = "")), (decide (due = 0%Z)), (decide (st = ""));
    subst; simpl;
    rewrite ?(bool_decide_eq_true_2 (_ ≠ _)) by done;
    rewrite ?(bool_decide_eq_false_2 (_ = _)) by done; simpl.
  all: by f_equal.
Qed.

Lemma UpdateTask_no_fields (taskID : string) (objID : ObjectID) (partial : Task) (w : World) :
  ObjectIDFromHex taskID = Some objID ->
  noFields partial ->
  UpdateTask taskID partial w = (w, Err ErrNoFieldsProvided).
Proof.
  intros Hid Hnone. unfold UpdateTask. rewrite Hid.
  apply setFieldsOf_size_zero in Hnone. by rewrite Hnone.
Qed.

Lemma UpdateTask_malformed (taskID : string) (partial : Task) (w : World) :
  ObjectIDFromHex taskID = None ->
  UpdateTask taskID partial w = (w, Err ErrInvalidTaskID).
Proof. intros Hid. unfold UpdateTask. by rewrite Hid. Qed.

Lemma UpdateTask_some_field (taskID : string) (objID : ObjectID) (partial : Task) (w : World) :
  ObjectIDFromHex taskID = Some objID ->
  ~ noFields partial ->
  nextCallFails w = None ->
  UpdateTask taskID partial w =
    match tasks w !! objID with
    | Some stored =>
        (with_tasks (<[objID := mergeTask stored partial]> (tasks w))
           (afterCall CallFindOneAndUpdate w),
         Ok (mergeTask stored partial))
    | None => (afterCall CallFindOneAndUpdate w, Err ErrTaskNotFound)
    end.
Proof.
  intros Hid Hsome Hlink. unfold UpdateTask. rewrite Hid.
  destruct (Nat.eqb_spec (size (setFieldsOf partial)) 0) as [Hz|Hz].
  { by apply setFieldsOf_size_zero in Hz. }
  unfold tasksFindOneAndUpdate, bind. rewrite (roundTrip_through _ _ Hlink).
  rewrite tasks_afterCall. destruct (tasks w !! objID) as [stored|]; [|done].
  by rewrite applySet_setFieldsOf.
Qed.

(** ** Claims about [UpdateTask] *)

(** C1. An update of a stored task that reaches the database overwrites, of
    title, description, due date and status, exactly the fields that are
    non-empty (non-zero) in [partial]: the update document has a key for
    those and no other, the stored document becomes the merge of the two
    records (a due date that is set overwrites the stored one as a BSON date,
    that is in whole milliseconds, and so unchanged when it has no smaller
    digits), every other document stays, and the record returned is that
    merged, stored record.  In particular an update that sets only the status
    leaves title and description as they were. *)
Theorem UpdateTask_merges (taskID : string) (objID : ObjectID)
    (partial stored : Task) (w : World) :
  ObjectIDFromHex taskID = Some objID ->
  tasks w !! objID = Some stored ->
  nextCallFails w = None ->
  ~ noFields partial ->
  exists (w' : World) (updated : Task),
    UpdateTask taskID partial w = (w', Ok updated)
    /\ tasks w' = <[objID := updated]> (tasks w)
    /\ tasks w' !! objID = Some updated
    /\ ID updated = ID stored
    /\ Title updated = (if decide (Title partial = "") then Title stored else Title partial)
    /\ Description updated =
         (if decide (Description partial = "") then Description stored
          else Description partial)
    /\ DueDate updated =
         (if decide (DueDate partial = 0%Z) then DueDate stored
          else bsonDate (DueDate partial))
    /\ ((DueDate partial mod 1000000 = 0)%Z ->
        DueDate updated =
          (if decide (DueDate partial = 0%Z) then DueDate stored else DueDate partial))
    /\ Status updated = (if decide (Status partial = "") then Status stored else Status partial)
    /\ (is_Some (setFieldsOf partial !! "title") <-> Title partial <> "")
    /\ (is_Some (setFieldsOf partial !! "description") <-> Description partial <> "")
    /\ (is_Some (setFieldsOf partial !! "due_date") <-> DueDate partial <> 0%Z)
    /\ (is_Some (setFieldsOf partial !! "status") <-> Status partial <> "")
    /\ (Title partial = "" -> Description partial = "" ->
        Title updated = Title stored /\ Description updated = Description stored).
Proof.
  intros Hid Hstored Hlink Hsome.
  eexists _, (mergeTask stored partial).
  rewrite (UpdateTask_some_field _ _ _ _ Hid Hsome Hlink), Hstored.
  split; [reflexivity|]. split; [done|].
  split; [simpl; apply lookup_insert_eq|].
  do 4 (split; [done|]).
  split.
  { intros Hwhole; simpl. case_decide; [done|]. by apply bsonDate_whole. }
  split; [done|].
  destruct (setFieldsOf_keys partial) as (H1 & H2 & H3 & H4).
  do 4 (split; [done|]).
  intros Ht Hd; simpl. by rewrite !decide_True.
Qed.

(** C2, as amended.  An update that sets none of the four fields fails and
    leaves the world, the stored tasks included, as it was; the error is the
    no-fields error when the identifier is well formed, and the invalid-id
    error when it is not. *)
Theorem UpdateTask_no_fields_fails (taskID : string) (partial : Task) (w : World) :
  noFields partial ->
  UpdateTask taskID partial w =
    (w, Err (match ObjectIDFromHex taskID with
             | Some _ => ErrNoFieldsProvided
             | None => ErrInvalidTaskID
             end)).
Proof.
  intros Hnone. destruct (ObjectIDFromHex taskID) as [objID|] eqn:Hid.
  - by apply (UpdateTask_no_fields _ objID).
  - by apply UpdateTask_malformed.
Qed.

(** C9. For a well-formed identifier, an update that sets no field returns
    the no-fields error without a call to the driver: the world is untouched
    and the log of calls has not grown, whatever the state of the link and
    whether or not the task exists.  Where the task does not exist, the same
    identifier with any field set yields [ErrTaskNotFound] instead. *)
Theorem UpdateTask_no_fields_before_lookup (taskID : string) (objID : ObjectID)
    (partial : Task) (w : World) :
  ObjectIDFromHex taskID = Some objID ->
  noFields partial ->
  UpdateTask taskID partial w = (w, Err ErrNoFieldsProvided)
  /\ calls (fst (UpdateTask taskID partial w)) = calls w
  /\ (tasks w !! objID = None -> nextCallFails w = None ->
      forall other : Task, ~ noFields other ->
        snd (UpdateTask taskID other w) = Err ErrTaskNotFound
        /\ calls (fst (UpdateTask taskID other w)) = CallFindOneAndUpdate :: calls w).
Proof.
  intros Hid Hnone. rewrite (UpdateTask_no_fields _ _ _ _ Hid Hnone).
  split; [done|]. split; [done|].
  intros Habsent Hlink other Hother.
  by rewrite (UpdateTask_some_field _ _ _ _ Hid Hother Hlink), Habsent.
Qed.

Lemma UpdateTask_merges_witness :
  exists (w' : World) (updated : Task),
    UpdateTask sampleHex (mkTask 0 "" "" 63888739200123456789 "completed") sampleWorld
      = (w', Ok updated)
    /\ Title updated = "Implement unit testing"
    /\ DueDate updated = 63888739200123000000%Z
    /\ Status updated = "completed".
Proof.
  destruct (UpdateTask_merges sampleHex sampleID
              (mkTask 0 "" "" 63888739200123456789 "completed") sampleTask sampleWorld)
    as (w' & updated & Hrun & _ & _ & _ & Ht & _ & Hd & _ & Hs & _).
  - reflexivity.
  - reflexivity.
  - reflexivity.
  - intros (_ & _ & _ & Hst); discriminate Hst.
  - exists w', updated. split; [exact Hrun|]. split; [exact Ht|].
    split; [exact Hd | exact Hs].
Defined.

(** C2, as stated, fails: with a malformed identifier the empty update is
    answered with the invalid-id error, not with the no-fields error. *)
Lemma UpdateTask_no_fields_malformed_id :
  UpdateTask "not-an-object-id" (mkTask 0 "" "" 0 "") sampleWorld
    = (sampleWorld, Err ErrInvalidTaskID)
  /\ snd (UpdateTask "not-an-object-id" (mkTask 0 "" "" 0 "") sampleWorld)
     <> Err ErrNoFieldsProvided.
Proof. split; [reflexivity | discriminate]. Qed.

Lemma UpdateTask_no_fields_fails_witness :
  UpdateTask sampleHex (mkTask 0 "" "" 0 "") sampleWorld
    = (sampleWorld, Err ErrNoFieldsProvided).
Proof.
  exact (UpdateTask_no_fields_fails sampleHex (mkTask 0 "" "" 0 "") sampleWorld
           (conj eq_refl (conj eq_refl (conj eq_refl eq_refl)))).
Defined.

Lemma UpdateTask_no_fields_before_lookup_witness :
  UpdateTask sampleHex (mkTask 0 "" "" 0 "") emptyWorld = (emptyWorld, Err ErrNoFieldsProvided)
  /\ snd (UpdateTask sampleHex (mkTask 0 "x" "" 0 "") emptyWorld) = Err ErrTaskNotFound.
Proof.
  destruct (UpdateTask_no_fields_before_lookup sampleHex sampleID (mkTask 0 "" "" 0 "")
              emptyWorld eq_refl (conj eq_refl (conj eq_refl (conj eq_refl eq_refl))))
    as (Hrun & _ & Hother).
  split; [exact Hrun|].
  apply (Hother eq_refl eq_refl (mkTask 0 "x" "" 0 "")).
  intros (Ht & _); discriminate Ht.
Defined.

(** ** [DeleteTask] and [GetTaskByID] *)

Lemma linkUp_S (n : nat) (c : call) (w : World) :
  linkUp (S n) w -> nextCallFails w = None /\ linkUp n (afterCall c w).
Proof.
  destruct w as [ts us uq lk cs g k]; unfold linkUp, nextCallFails, afterCall; simpl.
  destruct lk as [|o rest]; simpl.
  - intros _. split; [done|]. by destruct n.
  - intros H. apply Forall_cons in H. tauto.
Qed.

Lemma DeleteTask_through (taskID : string) (objID : ObjectID) (w : World) :
  ObjectIDFromHex taskID = Some objID ->
  nextCallFails w = None ->
  DeleteTask taskID w =
    match tasks w !! objID with
    | Some _ => (with_tasks (delete objID (tasks w)) (afterCall CallDeleteOne w), None)
    | None => (afterCall CallDeleteOne w, Some ErrTaskNotFound)
    end.
Proof.
  intros Hid Hlink. unfold DeleteTask, tasksDeleteOne, bind. rewrite Hid.
  rewrite (roundTrip_through _ _ Hlink), tasks_afterCall.
  by destruct (tasks w !! objID).
Qed.

Lemma GetTaskByID_through (taskID : string) (objID : ObjectID) (w : World) :
  ObjectIDFromHex taskID = Some objID ->
  nextCallFails w = None ->
  GetTaskByID taskID w =
    (afterCall CallFindOne w,
     match tasks w !! objID with
     | Some task => Ok task
     | None => Err ErrTaskNotFound
     end).
Proof.
  intros Hid Hlink. unfold GetTaskByID, tasksFindOne, bind. rewrite Hid.
  rewrite (roundTrip_through _ _ Hlink), tasks_afterCall.
  by destruct (tasks w !! objID).
Qed.

(** A deletion that succeeded took the document out of the collection. *)
Lemma DeleteTask_succeeded (taskID : string) (w w' : World) :
  DeleteTask taskID w = (w', None) ->
  exists objID : ObjectID,
    ObjectIDFromHex taskID = Some objID
    /\ is_Some (tasks w !! objID)
    /\ tasks w' = delete objID (tasks w).
Proof.
  unfold DeleteTask. destruct (ObjectIDFromHex taskID) as [objID|] eqn:Hid; [|done].
  intros Hrun. exists objID. split; [done|]. revert Hrun.
  unfold tasksDeleteOne, bind.
  destruct (nextCallFails w) as [msg|] eqn:Hlink.
  - by rewrite (roundTrip_fails _ _ _ Hlink).
  - rewrite (roundTrip_through _ _ Hlink), tasks_afterCall.
    destruct (tasks w !! objID) as [stored|]; simpl; [|done].
    intros [= <-]. by split; [eexists|].
Qed.

(** C5. [DeleteTask] answers a malformed identifier with the invalid-id
    error and a well-formed identifier under which nothing is stored (no
    document deleted) with [ErrTaskNotFound], the collection being left as it
    was; and once [DeleteTask] has succeeded for an identifier,
    [GetTaskByID] for it answers [ErrTaskNotFound]. *)
Theorem DeleteTask_not_found (taskID : string) (w : World) :
  (ObjectIDFromHex taskID = None -> DeleteTask taskID w = (w, Some ErrInvalidTaskID))
  /\ (forall objID : ObjectID,
       ObjectIDFromHex taskID = Some objID ->
       tasks w !! objID = None ->
       nextCallFails w = None ->
       exists w' : World,
         DeleteTask taskID w = (w', Some ErrTaskNotFound) /\ tasks w' = tasks w)
  /\ (forall w' : World,
       DeleteTask taskID w = (w', None) ->
       nextCallFails w' = None ->
       exists w'' : World, GetTaskByID taskID w' = (w'', Err ErrTaskNotFound)).
Proof.
  split; [|split].
  - intros Hid. unfold DeleteTask. by rewrite Hid.
  - intros objID Hid Habsent Hlink.
    rewrite (DeleteTask_through _ _ _ Hid Hlink), Habsent. by eexists.
  - intros w' Hdel Hlink.
    destruct (DeleteTask_succeeded _ _ _ Hdel) as (objID & Hid & _ & Htasks).
    rewrite (GetTaskByID_through _ _ _ Hid Hlink), Htasks, lookup_delete_eq.
    by eexists.
Qed.

Lemma DeleteTask_not_found_witness :
  DeleteTask "42" sampleWorld = (sampleWorld, Some ErrInvalidTaskID)
  /\ snd (DeleteTask sampleHex emptyWorld) = Some ErrTaskNotFound
  /\ snd (DeleteTask sampleHex sampleWorld) = None
  /\ snd (GetTaskByID sampleHex (fst (DeleteTask sampleHex sampleWorld)))
     = Err ErrTaskNotFound.
Proof.
  split; [|split; [|split]].
  - exact (proj1 (DeleteTask_not_found "42" sampleWorld) eq_refl).
  - destruct (proj1 (proj2 (DeleteTask_not_found sampleHex emptyWorld))
                sampleID eq_refl eq_refl eq_refl) as (w' & Hrun & _).
    rewrite Hrun. reflexivity.
  - reflexivity.
  - destruct (proj2 (proj2 (DeleteTask_not_found sampleHex sampleWorld))
                (fst (DeleteTask sampleHex sampleWorld)) eq_refl eq_refl) as (w'' & Hrun).
    rewrite Hrun. reflexivity.
Defined.

(** ** [GetAllTasks] *)

Lemma len_zero_not_nil_payload (ts : slice Task) :
  encodesAsNull (VTasks (if Nat.eqb (len ts) 0 then Slice [] else ts)) = false.
Proof. by destruct ts as [|[|t l]]. Qed.

(** C6. On a collection without documents [GetAllTasks] returns a slice
    that is empty and not nil; and whatever slice of length zero, nil or
    not, the use case hands to the controller without an error, the
    controller sends the empty non-nil slice, so that the payload of a
    successful listing never encodes as [null]. *)
Theorem GetAllTasks_empty_not_nil (w : World) (S : Type) (uc : TaskUseCase S) (s : S) :
  (tasks w = ∅ -> linkUp 2 w ->
     exists w' : World, GetAllTasks w = (w', Ok (Slice [])) /\ tasks w' = ∅)
  /\ (forall (s' : S) (ts : slice Task),
       ucGetAllTasks uc s = (s', (ts, None)) ->
       len ts = 0 ->
       TaskController_GetAllTasks uc s = (s', Respond StatusOK (VTasks (Slice []))))
  /\ (forall (s' : S) (ts : slice Task),
       ucGetAllTasks uc s = (s', (ts, None)) ->
       exists payload : value,
         TaskController_GetAllTasks uc s = (s', Respond StatusOK payload)
         /\ encodesAsNull payload = false).
Proof.
  split; [|split].
  - intros Hempty Hlink.
    destruct (linkUp_S _ CallFind _ Hlink) as [Hfind Hlink1].
    destruct (linkUp_S _ CallCursorAll _ Hlink1) as [Hall _].
    unfold GetAllTasks, tasksFind, cursorAll, bind.
    rewrite (roundTrip_through _ _ Hfind), tasks_afterCall, Hempty, map_to_list_empty.
    simpl. rewrite (roundTrip_through _ _ Hall). simpl.
    eexists; split; [reflexivity|]. by rewrite !tasks_afterCall.
  - intros s' ts Huc Hlen. unfold TaskController_GetAllTasks, bind.
    by rewrite Huc, Hlen.
  - intros s' ts Huc. unfold TaskController_GetAllTasks, bind. rewrite Huc.
    pose proof (len_zero_not_nil_payload ts) as Hpayload.
    destruct (Nat.eqb (len ts) 0); by eexists.
Qed.

Lemma GetAllTasks_empty_not_nil_witness :
  snd (GetAllTasks emptyWorld) = Ok (Slice [])
  /\ snd (TaskController_GetAllTasks (mkTaskUseCase CreateTask (ret (NilSlice, None)))
            emptyWorld)
     = Respond StatusOK (VTasks (Slice [])).
Proof.
  pose proof (GetAllTasks_empty_not_nil emptyWorld World
                (mkTaskUseCase CreateTask (ret (NilSlice, None))) emptyWorld)
    as (Hrepo & Hctl & _).
  split.
  - destruct (Hrepo eq_refl (Forall_nil_2 _)) as (w' & Hrun & _).
    rewrite Hrun. reflexivity.
  - rewrite (Hctl emptyWorld NilSlice eq_refl eq_refl). reflexivity.
Defined.

(** ** [CreateTask] *)

Lemma CreateTask_run (task : Task) (w : World) :
  nextCallFails w = None ->
  let newID := oid_gen w (oid_used w) in
  let created := mkTask newID (Title task) (Description task) (DueDate task) (Status task) in
  let w1 := afterCall CallInsertOne (with_oid_used (S (oid_used w)) w) in
  CreateTask task w =
    match tasks w !! newID with
    | Some _ => (w1, Err ErrDuplicateKey)
    | None => (with_tasks (<[newID := bsonTask created]> (tasks w)) w1, Ok created)
    end.
Proof.
  intros Hlink. unfold CreateTask, NewObjectID, tasksInsertOne, bind; simpl.
  rewrite (roundTrip_through _ (with_oid_used _ w)) by done.
  rewrite tasks_afterCall; simpl.
  by destruct (tasks w !! oid_gen w (oid_used w)).
Qed.

Lemma CreateTask_Ok (task : Task) (w w' : World) (created : Task) :
  CreateTask task w = (w', Ok created) ->
  created = mkTask (oid_gen w (oid_used w)) (Title task) (Description task)
              (DueDate task) (Status task)
  /\ tasks w !! ID created = None
  /\ tasks w' = <[ID created := bsonTask created]> (tasks w)
  /\ oid_used w' = S (oid_used w).
Proof.
  destruct (nextCallFails w) as [msg|] eqn:Hlink.
  - unfold CreateTask, NewObjectID, tasksInsertOne, bind; simpl.
    by rewrite (roundTrip_fails _ (with_oid_used _ w) msg).
  - rewrite (CreateTask_run _ _ Hlink); simpl.
    destruct (tasks w !! oid_gen w (oid_used w)) eqn:Hfresh; [done|].
    intros [= <- <-]. by simpl.
Qed.

Lemma oneofStatus_spec (s : string) :
  oneofStatus s = true <-> s = "pending" \/ s = "in_progress" \/ s = "completed".
Proof.
  unfold oneofStatus. rewrite !orb_true_iff, !bool_decide_eq_true. tauto.
Qed.




(** ** [CreateUser] *)

(** The struct and the world as [CreateUser] has them when it calls
    [InsertOne]. *)
Lemma CreateUser_run (user : User) (w : World) :
  nextCallFails w = None ->
  let user1 :=
    if IsZero (UserID user)
    then mkUser (oid_gen w (oid_used w)) (Username user) (Password user) (Role user)
    else user in
  let w1 :=
    afterCall CallInsertOne
      (if IsZero (UserID user) then with_oid_used (S (oid_used w)) w else w) in
  CreateUser user w =
    if usersDuplicate user1 w then (w1, (user1, Some ErrUserExists))
    else (with_users (<[UserID user1 := user1]> (users w)) w1, (user1, None)).
Proof.
  intros Hlink. unfold CreateUser, NewObjectID, usersInsertOne, bind.
  destruct (IsZero (UserID user)); simpl.
  - rewrite (roundTrip_through _ (with_oid_used _ w)) by done.
    unfold usersDuplicate; simpl.
    by destruct (_ || _).
  - rewrite (roundTrip_through _ w) by done.
    unfold usersDuplicate; simpl.
    by destruct (_ || _).
Qed.

Lemma usersDuplicate_username (user existing : User) (id : ObjectID) (w : World) :
  unique_usernames w = true ->
  users w !! id = Some existing ->
  Username existing = Username user ->
  usersDuplicate user w = true.
Proof.
  intros Huniq Hex Hname. unfold usersDuplicate. rewrite Huniq; simpl.
  apply orb_true_iff; right. apply bool_decide_eq_true. by exists id, existing.
Qed.

(** C4, as amended.  When the [users] collection enforces unique usernames
    (the duplicate-key signal of the storage layer) and the link is up,
    [CreateUser] with a username that a stored user already has fails with
    [ErrUserExists], and the collection holds the same documents as before:
    no second record is created. *)
Theorem CreateUser_duplicate_username (user existing : User) (id : ObjectID) (w : World) :
  unique_usernames w = true ->
  nextCallFails w = None ->
  users w !! id = Some existing ->
  Username existing = Username user ->
  exists (w' : World) (user' : User),
    CreateUser user w = (w', (user', Some ErrUserExists))
    /\ users w' = users w
    /\ size (users w') = size (users w).
Proof.
  intros Huniq Hlink Hex Hname.
  rewrite (CreateUser_run _ _ Hlink).
  destruct (IsZero (UserID user)).
  - rewrite (usersDuplicate_username _ existing id) by done. by eexists _, _.
  - rewrite (usersDuplicate_username _ existing id) by done. by eexists _, _.
Qed.

(** A user and a database in which that user is registered, the collection
    having the unique index. *)
Lemma CreateUser_duplicate_username_witness :
  let alice := mkUser 7 "alice" "$2a$10$hash" "admin" in
  let w := with_users {[7%N := alice]} emptyWorld in
  exists (w' : World) (user' : User),
    CreateUser (mkUser 0 "alice" "$2a$10$other" "user") w = (w', (user', Some ErrUserExists))
    /\ users w' = users w
    /\ size (users w') = size (users w).
Proof.
  intros alice w.
  exact (CreateUser_duplicate_username (mkUser 0 "alice" "$2a$10$other" "user") alice 7 w
           eq_refl eq_refl eq_refl eq_refl).
Defined.

(** C10. [CreateUser] generates an identifier only for a record whose
    identifier is zero; a non-zero identifier supplied by the caller is kept
    and is the key under which the record is stored, and no identifier is
    generated.  [CreateTask] in contrast generates an identifier for every
    task: whatever identifier the caller supplied, the task is returned with
    the generated one and stored under it, nothing is stored under the
    supplied one, and the supplied identifier has no influence on the call. *)
Theorem CreateUser_keeps_supplied_id (user : User) (task : Task) (w : World) :
  (UserID user <> NilObjectID ->
   nextCallFails w = None ->
   usersDuplicate user w = false ->
   exists w' : World,
     CreateUser user w = (w', (user, None))
     /\ users w' = <[UserID user := user]> (users w)
     /\ oid_used w' = oid_used w)
  /\ (UserID user = NilObjectID ->
      nextCallFails w = None ->
      let user1 := mkUser (oid_gen w (oid_used w)) (Username user) (Password user)
                     (Role user) in
      usersDuplicate user1 w = false ->
      exists w' : World,
        CreateUser user w = (w', (user1, None))
        /\ users w' = <[oid_gen w (oid_used w) := user1]> (users w)
        /\ oid_used w' = S (oid_used w))
  /\ (nextCallFails w = None ->
      tasks w !! oid_gen w (oid_used w) = None ->
      exists (w' : World) (created : Task),
        CreateTask task w = (w', Ok created)
        /\ ID created = oid_gen w (oid_used w)
        /\ is_Some (tasks w' !! oid_gen w (oid_used w))
        /\ (ID task <> oid_gen w (oid_used w) -> tasks w' !! ID task = tasks w !! ID task)
        /\ oid_used w' = S (oid_used w))
  /\ (forall (w' : World) (created : Task),
        CreateTask task w = (w', Ok created) ->
        ID created = oid_gen w (oid_used w)
        /\ tasks w' = <[oid_gen w (oid_used w) := bsonTask created]> (tasks w)
        /\ oid_used w' = S (oid_used w))
  /\ oid_used (fst (CreateTask task w)) = S (oid_used w)
  /\ (forall supplied : ObjectID,
        CreateTask (mkTask supplied (Title task) (Description task) (DueDate task)
                      (Status task)) w
        = CreateTask task w).
Proof.
  split; [|split; [|split; [|split; [|split]]]].
  - intros Hid Hlink Hdup. rewrite (CreateUser_run _ _ Hlink).
    unfold IsZero. rewrite (bool_decide_eq_false_2 _ Hid), Hdup. by eexists.
  - intros Hid Hlink user1 Hdup. rewrite (CreateUser_run _ _ Hlink).
    unfold IsZero. rewrite (bool_decide_eq_true_2 _ Hid). fold user1. rewrite Hdup.
    by eexists.
  - intros Hlink Hfresh. rewrite (CreateTask_run _ _ Hlink), Hfresh.
    eexists _, _. split; [reflexivity|]. simpl. split; [done|].
    split; [rewrite lookup_insert_eq; by eexists|].
    split; [|done]. intros Hne. by rewrite lookup_insert_ne.
  - intros w' created Hrun.
    destruct (CreateTask_Ok _ _ _ _ Hrun) as (Hc & _ & Htasks & Hused).
    rewrite Htasks, Hc. by simpl.
  - unfold CreateTask, NewObjectID, tasksInsertOne, bind, roundTrip; simpl.
    destruct (link w) as [|[msg|] rest]; simpl; try done;
      by destruct (tasks w !! oid_gen w (oid_used w)).
  - done.
Qed.

Lemma CreateUser_keeps_supplied_id_witness :
  snd (CreateUser (mkUser 7 "alice" "$2a$10$hash" "admin") emptyWorld)
    = (mkUser 7 "alice" "$2a$10$hash" "admin", None)
  /\ snd (CreateUser (mkUser 0 "alice" "$2a$10$hash" "admin") emptyWorld)
     = (mkUser 1 "alice" "$2a$10$hash" "admin", None)
  /\ (exists (w' : World) (created : Task),
        CreateTask (mkTask 7 "t" "" 0 "pending") emptyWorld = (w', Ok created)
        /\ ID created = 1%N
        /\ is_Some (tasks w' !! 1%N)
        /\ tasks w' !! 7%N = None).
Proof.
  pose proof (CreateUser_keeps_supplied_id (mkUser 7 "alice" "$2a$10$hash" "admin")
                (mkTask 7 "t" "" 0 "pending") emptyWorld) as (Hkeep & _ & Htask & _).
  pose proof (CreateUser_keeps_supplied_id (mkUser 0 "alice" "$2a$10$hash" "admin")
                (mkTask 7 "t" "" 0 "pending") emptyWorld) as (_ & Hgen & _).
  split; [|split].
  - destruct Hkeep as (w' & Hrun & _); [discriminate | reflexivity | reflexivity |].
    rewrite Hrun. reflexivity.
  - destruct Hgen as (w' & Hrun & _); [reflexivity | reflexivity | reflexivity |].
    rewrite Hrun. reflexivity.
  - destruct (Htask eq_refl eq_refl) as (w' & created & Hrun & Hid & Hstored & Hother & _).
    exists w', created. split; [exact Hrun|]. split; [exact Hid|].
    split; [exact Hstored|]. apply Hother. discriminate.
Defined.

(** C4, as stated, fails: in a [users] collection without a unique index on
    the username, which is how main.go leaves the collection, the database
    signals no clash, and [CreateUser] for a username that is already stored
    returns no error and stores a second record with that username. *)
Lemma CreateUser_without_index :
  snd (CreateUser (mkUser 0 "alice" "$2a$10$other" "user")
         (mkWorld ∅ {[7%N := mkUser 7 "alice" "$2a$10$hash" "admin"]} false [] []
            (fun n => N.of_nat (S n)) 0))
    = (mkUser 1 "alice" "$2a$10$other" "user", None)
  /\ users (fst (CreateUser (mkUser 0 "alice" "$2a$10$other" "user")
                   (mkWorld ∅ {[7%N := mkUser 7 "alice" "$2a$10$hash" "admin"]} false [] []
                      (fun n => N.of_nat (S n)) 0)))
     = {[7%N := mkUser 7 "alice" "$2a$10$hash" "admin";
         1%N := mkUser 1 "alice" "$2a$10$other" "user"]}
  /\ size (users (fst (CreateUser (mkUser 0 "alice" "$2a$10$other" "user")
                         (mkWorld ∅ {[7%N := mkUser 7 "alice" "$2a$10$hash" "admin"]}
                            false [] [] (fun n => N.of_nat (S n)) 0))))
     = 2.
Proof. split; [reflexivity|]. split; [|reflexivity]. by vm_compute. Qed.

(** ** [UserController.Login] *)

(** C8. When the use case reports a successful login, the controller
    answers 200 with the token and a view of the user made of exactly id,
    username and role.  The response is the same whatever the stored password
    hash is: a login that succeeds with the same token for a user that
    differs only in the hash is answered identically. *)
Theorem Login_view_without_hash (S : Type) (uc : UserUseCase S) (creds : Credentials)
    (s s' : S) (token : string) (user : User) :
  ucLogin uc creds s = (s', (token, Some user, None)) ->
  exists view : list (string * value),
    UserController_Login uc (inr creds) s
      = (s', Respond StatusOK (VH [("token", VString token); ("user", VH view)]))
    /\ view = [("id", VObjectID (UserID user)); ("username", VString (Username user));
               ("role", VString (Role user))]
    /\ view.*1 = ["id"; "username"; "role"]
    /\ (forall (uc2 : UserUseCase S) (creds2 : Credentials) (s2 s2' : S) (hash2 : string),
         ucLogin uc2 creds2 s2
           = (s2', (token, Some (mkUser (UserID user) (Username user) hash2 (Role user)),
                    None)) ->
         snd (UserController_Login uc2 (inr creds2) s2)
           = snd (UserController_Login uc (inr creds) s)).
Proof.
  intros Huc. eexists. split; [|split; [reflexivity|split; [reflexivity|]]].
  - unfold UserController_Login, bind. by rewrite Huc.
  - intros uc2 creds2 s2 s2' hash2 Huc2.
    unfold UserController_Login, bind. by rewrite Huc, Huc2.
Qed.

Lemma Login_view_without_hash_witness :
  let alice := mkUser 7 "alice" "$2a$10$hash" "admin" in
  let uc := mkUserUseCase (fun _ : Credentials => ret (S := unit) ("token", Some alice, None)) in
  snd (UserController_Login uc (inr (mkCredentials "alice" "pw123456")) tt)
    = Respond StatusOK
        (VH [("token", VString "token");
             ("user", VH [("id", VObjectID 7); ("username", VString "alice");
                          ("role", VString "admin")])]).
Proof.
  intros alice uc.
  destruct (Login_view_without_hash unit uc (mkCredentials "alice" "pw123456") tt tt
              "token" alice eq_refl) as (view & Hrun & Hview & _).
  rewrite Hrun, Hview. reflexivity.
Defined.

(** ** The password service *)

Section PasswordService.

Variable eks : nat -> list ascii -> list ascii -> option (list ascii).

Lemma length_fit (n : nat) (bs : list ascii) : length (fit n bs) = n.
Proof. unfold fit. rewrite length_take, length_app, length_replicate. lia. Qed.

Lemma fit_exact (n : nat) (bs : list ascii) : length bs = n -> fit n bs = bs.
Proof. intros H. unfold fit. by rewrite take_app_length'. Qed.

Lemma fit_fit (n : nat) (bs : list ascii) : fit n (fit n bs) = fit n bs.
Proof. apply fit_exact, length_fit. Qed.

(** What [GenerateFromPassword] writes, [newFromHash] reads back. *)
Lemma newFromHash_hashedHash (digest encodedSalt : list ascii) :
  length encodedSalt = 22 ->
  newFromHash (hashedHash (mkHashed digest encodedSalt DefaultCost "2" "a"))
  = Ok (mkHashed (fit 31 digest) encodedSalt DefaultCost "2" "a").
Proof.
  intros Hsalt. unfold hashedHash; simpl.
  rewrite (fit_exact 22 encodedSalt Hsalt).
  unfold newFromHash.
  match goal with
  | |- context [length ?l] => assert (length l = 60) as ->
  end.
  { simpl. rewrite length_app, length_fit. lia. }
  simpl. rewrite drop_0, take_app_length', drop_app_length' by done. done.
Qed.

Lemma HashPassword_Ok (encodedSalt : list ascii) (password hashed : string) :
  HashPassword eks (Ok encodedSalt) password = (hashed, None) ->
  exists digest : list ascii,
    length (list_ascii_of_string password) <= 72
    /\ eks DefaultCost encodedSalt (keyStream (list_ascii_of_string password ++ [zero]))
       = Some digest
    /\ hashed = string_of_list_ascii
                  (hashedHash (mkHashed digest encodedSalt DefaultCost "2" "a")).
Proof.
  unfold HashPassword, GenerateFromPassword, bcryptDigest.
  destruct (Nat.ltb_spec 72 (length (list_ascii_of_string password))) as [|Hlen]; [done|].
  simpl.
  destruct (eks _ _ _) as [digest|]; [|done].
  intros [= <-]. by exists digest.
Qed.

Lemma HashPassword_succeeds (encodedSalt : list ascii) (password : string) :
  length (list_ascii_of_string password) <= 72 ->
  is_Some (eks DefaultCost encodedSalt
             (keyStream (list_ascii_of_string password ++ [zero]))) ->
  exists hashed : string, HashPassword eks (Ok encodedSalt) password = (hashed, None).
Proof.
  intros Hlen [digest Hdigest].
  unfold HashPassword, GenerateFromPassword, bcryptDigest.
  destruct (Nat.ltb_spec 72 (length (list_ascii_of_string password))); [lia|].
  simpl. rewrite Hdigest. by eexists.
Qed.

Lemma CheckPassword_hashed (digest encodedSalt : list ascii) (plain : string) :
  length encodedSalt = 22 ->
  CheckPassword eks
    (string_of_list_ascii (hashedHash (mkHashed digest encodedSalt DefaultCost "2" "a")))
    plain = true
  <-> fit 31 <$> eks DefaultCost encodedSalt
                   (keyStream (list_ascii_of_string plain ++ [zero]))
      = Some (fit 31 digest).
Proof.
  intros Hsalt. unfold CheckPassword, CompareHashAndPassword.
  rewrite list_ascii_of_string_of_list_ascii, (newFromHash_hashedHash _ _ Hsalt).
  unfold bcryptDigest; simpl.
  destruct (eks _ _ _) as [other|]; simpl; [|done].
  unfold hashedHash; simpl. rewrite fit_fit.
  case_bool_decide as Heq; split; try done.
  - intros _. f_equal. by simplify_list_eq.
  - intros [= Hfit]. by rewrite Hfit in Heq.
Qed.

(** C3, as amended.  For a password that [HashPassword] hashes without
    error, [CheckPassword] accepts the hash with that password; it accepts
    the hash with another password exactly when bcrypt computes the same
    digest for it under the salt and cost of the hash, which is the case
    for every password with the same 72 key bytes; and it answers false,
    never an error, whenever bcrypt reports one, be it a mismatch or a
    stored hash that does not parse. *)
Theorem CheckPassword_HashPassword (encodedSalt : list ascii) (password hashed : string) :
  length encodedSalt = 22 ->
  HashPassword eks (Ok encodedSalt) password = (hashed, None) ->
  CheckPassword eks hashed password = true
  /\ (forall other : string,
        CheckPassword eks hashed other = true
        <-> fit 31 <$> eks DefaultCost encodedSalt
                         (keyStream (list_ascii_of_string other ++ [zero]))
            = fit 31 <$> eks DefaultCost encodedSalt
                           (keyStream (list_ascii_of_string password ++ [zero])))
  /\ (forall other : string,
        keyStream (list_ascii_of_string other ++ [zero])
          = keyStream (list_ascii_of_string password ++ [zero]) ->
        CheckPassword eks hashed other = true)
  /\ (forall stored plain : string,
        CheckPassword eks stored plain = false
        <-> exists e : error,
              CompareHashAndPassword eks (list_ascii_of_string stored)
                (list_ascii_of_string plain) = Some e)
  /\ (forall (stored plain : string) (e : error),
        newFromHash (list_ascii_of_string stored) = Err e ->
        CheckPassword eks stored plain = false).
Proof.
  intros Hsalt Hhash.
  destruct (HashPassword_Ok _ _ _ Hhash) as (digest & _ & Hdigest & ->).
  assert (forall other : string,
            CheckPassword eks
              (string_of_list_ascii
                 (hashedHash (mkHashed digest encodedSalt DefaultCost "2" "a"))) other
            = true
            <-> fit 31 <$> eks DefaultCost encodedSalt
                             (keyStream (list_ascii_of_string other ++ [zero]))
                = fit 31 <$> eks DefaultCost encodedSalt
                               (keyStream (list_ascii_of_string password ++ [zero])))
    as Hiff.
  { intros other. rewrite Hdigest. by apply CheckPassword_hashed. }
  split; [by apply Hiff|]. split; [exact Hiff|]. split; [|split].
  - intros other Hkey. apply Hiff. by rewrite Hkey.
  - intros stored plain. unfold CheckPassword.
    destruct (CompareHashAndPassword _ _ _) as [e|]; split; try done.
    + by exists e.
    + by intros [e He].
  - intros stored plain e Hparse. unfold CheckPassword, CompareHashAndPassword.
    by rewrite Hparse.
Qed.

End PasswordService.

Lemma CheckPassword_HashPassword_witness :
  CheckPassword sampleCore (fst (HashPassword sampleCore (Ok sampleSalt) "pw123456"))
    "pw123456" = true.
Proof.
  exact (proj1 (CheckPassword_HashPassword sampleCore sampleSalt "pw123456"
                  (fst (HashPassword sampleCore (Ok sampleSalt) "pw123456"))
                  eq_refl eq_refl)).
Defined.

(** C3, as stated, fails: the hash of the 72-byte password is accepted with
    the 73-byte password as well, whatever the Blowfish core and the salt,
    since the key schedule reads the same 72 bytes for both.  (The hash
    exists as soon as the core yields a digest.) *)
Lemma CheckPassword_accepts_longer_password :
  longerPassword <> longPassword
  /\ (forall (eks : nat -> list ascii -> list ascii -> option (list ascii))
        (encodedSalt : list ascii) (hashed : string),
        length encodedSalt = 22 ->
        HashPassword eks (Ok encodedSalt) longPassword = (hashed, None) ->
        CheckPassword eks hashed longerPassword = true)
  /\ (forall (eks : nat -> list ascii -> list ascii -> option (list ascii))
        (encodedSalt : list ascii),
        is_Some (eks DefaultCost encodedSalt
                   (keyStream (list_ascii_of_string longPassword ++ [zero]))) ->
        exists hashed : string,
          HashPassword eks (Ok encodedSalt) longPassword = (hashed, None)).
Proof.
  split; [discriminate|]. split.
  - intros eks encodedSalt hashed Hsalt Hhash.
    destruct (HashPassword_Ok _ _ _ _ Hhash) as (digest & _ & Hdigest & ->).
    apply CheckPassword_hashed; [done|].
    replace (keyStream (list_ascii_of_string longerPassword ++ [zero]))
      with (keyStream (list_ascii_of_string longPassword ++ [zero]))
      by (by vm_compute).
    by rewrite Hdigest.
  - intros eks encodedSalt Hsome. apply HashPassword_succeeds; [|done].
    apply Nat.leb_le. reflexivity.
Qed.


(** * Further properties of the repositories *)

(** ** Every call, whatever the state of the link *)

Lemma roundTrip_any (c : call) (w : World) :
  roundTrip c w = (afterCall c w, ErrDriver <$> nextCallFails w).
Proof.
  destruct (nextCallFails w) as [msg|] eqn:Hlink.
  - by apply roundTrip_fails.
  - by apply roundTrip_through.
Qed.

Lemma nextCallFails_with_oid_used (n : nat) (w : World) :
  nextCallFails (with_oid_used n w) = nextCallFails w.
Proof. done. Qed.

Lemma CreateTask_any (task : Task) (w : World) :
  let newID := oid_gen w (oid_used w) in
  let created := mkTask newID (Title task) (Description task) (DueDate task) (Status task) in
  let w1 := afterCall CallInsertOne (with_oid_used (S (oid_used w)) w) in
  CreateTask task w =
    match nextCallFails w with
    | Some msg => (w1, Err (ErrDriver msg))
    | None =>
        match tasks w !! newID with
        | Some _ => (w1, Err ErrDuplicateKey)
        | None => (with_tasks (<[newID := bsonTask created]> (tasks w)) w1, Ok created)
        end
    end.
Proof.
  intros newID created w1.
  destruct (nextCallFails w) as [msg|] eqn:Hlink.
  - unfold CreateTask, NewObjectID, tasksInsertOne, bind; simpl.
    by rewrite (roundTrip_fails _ (with_oid_used _ w) msg).
  - by apply CreateTask_run.
Qed.

Lemma DeleteTask_any (taskID : string) (w : World) :
  DeleteTask taskID w =
    match ObjectIDFromHex taskID with
    | None => (w, Some ErrInvalidTaskID)
    | Some objID =>
        match nextCallFails w with
        | Some msg => (afterCall CallDeleteOne w, Some (ErrDriver msg))
        | None =>
            match tasks w !! objID with
            | Some _ => (with_tasks (delete objID (tasks w)) (afterCall CallDeleteOne w), None)
            | None => (afterCall CallDeleteOne w, Some ErrTaskNotFound)
            end
        end
    end.
Proof.
  destruct (ObjectIDFromHex taskID) as [objID|] eqn:Hid.
  - destruct (nextCallFails w) as [msg|] eqn:Hlink.
    + unfold DeleteTask, tasksDeleteOne, bind. rewrite Hid.
      by rewrite (roundTrip_fails _ _ _ Hlink).
    + by apply DeleteTask_through.
  - unfold DeleteTask. by rewrite Hid.
Qed.

Lemma GetTaskByID_any (taskID : string) (w : World) :
  GetTaskByID taskID w =
    match ObjectIDFromHex taskID with
    | None => (w, Err ErrInvalidTaskID)
    | Some objID =>
        (afterCall CallFindOne w,
         match nextCallFails w with
         | Some msg => Err (ErrDriver msg)
         | None =>
             match tasks w !! objID with
             | Some task => Ok task
             | None => Err ErrTaskNotFound
             end
         end)
    end.
Proof.
  destruct (ObjectIDFromHex taskID) as [objID|] eqn:Hid.
  - destruct (nextCallFails w) as [msg|] eqn:Hlink.
    + unfold GetTaskByID, tasksFindOne, bind. rewrite Hid.
      by rewrite (roundTrip_fails _ _ _ Hlink).
    + by apply GetTaskByID_through.
  - unfold GetTaskByID. by rewrite Hid.
Qed.

Lemma UpdateTask_any (taskID : string) (partial : Task) (w : World) :
  UpdateTask taskID partial w =
    match ObjectIDFromHex taskID with
    | None => (w, Err ErrInvalidTaskID)
    | Some objID =>
        if Nat.eqb (size (setFieldsOf partial)) 0 then (w, Err ErrNoFieldsProvided)
        else
          match nextCallFails w with
          | Some msg => (afterCall CallFindOneAndUpdate w, Err (ErrDriver msg))
          | None =>
              match tasks w !! objID with
              | Some stored =>
                  (with_tasks (<[objID := mergeTask stored partial]> (tasks w))
                     (afterCall CallFindOneAndUpdate w),
                   Ok (mergeTask stored partial))
              | None => (afterCall CallFindOneAndUpdate w, Err ErrTaskNotFound)
              end
          end
    end.
Proof.
  destruct (ObjectIDFromHex taskID) as [objID|] eqn:Hid; [|by apply UpdateTask_malformed].
  destruct (Nat.eqb_spec (size (setFieldsOf partial)) 0) as [Hz|Hz].
  { apply (UpdateTask_no_fields _ objID); [done|]. by apply setFieldsOf_size_zero. }
  destruct (nextCallFails w) as [msg|] eqn:Hlink.
  - unfold UpdateTask, tasksFindOneAndUpdate, bind. rewrite Hid.
    destruct (Nat.eqb_spec (size (setFieldsOf partial)) 0); [done|].
    by rewrite (roundTrip_fails _ _ _ Hlink).
  - apply UpdateTask_some_field; [done| |done].
    intros Hnone. by apply setFieldsOf_size_zero in Hnone.
Qed.

Lemma GetAllTasks_any (w : World) :
  let w1 := afterCall CallFind w in
  let w2 := afterCall CallCursorAll w1 in
  GetAllTasks w =
    match nextCallFails w with
    | Some msg => (w1, Err (ErrDriver msg))
    | None =>
        match nextCallFails w1 with
        | Some msg => (w2, Err (ErrDriver msg))
        | None => (w2, Ok (Slice (map_to_list (tasks w)).*2))
        end
    end.
Proof.
  simpl. unfold GetAllTasks, tasksFind, cursorAll, bind.
  rewrite roundTrip_any.
  destruct (nextCallFails w) as [msg|]; simpl; [done|].
  rewrite roundTrip_any.
  destruct (nextCallFails (afterCall CallFind w)) as [msg|]; simpl; [done|].
  by destruct ((map_to_list (tasks w)).*2).
Qed.

(** ** Reading a task *)

(** X1. [GetTaskByID] answers a malformed identifier with the invalid-id
    error without a call to the driver; for a well-formed identifier and a
    call that gets through it returns a task exactly when that task is the
    document stored under the identifier, and [ErrTaskNotFound] exactly when
    nothing is stored there.  In no case does it change a collection. *)
Theorem GetTaskByID_lookup (taskID : string) (w : World) :
  (ObjectIDFromHex taskID = None -> GetTaskByID taskID w = (w, Err ErrInvalidTaskID))
  /\ (forall objID : ObjectID,
        ObjectIDFromHex taskID = Some objID ->
        nextCallFails w = None ->
        (forall t : Task, snd (GetTaskByID taskID w) = Ok t <-> tasks w !! objID = Some t)
        /\ (snd (GetTaskByID taskID w) = Err ErrTaskNotFound <-> tasks w !! objID = None))
  /\ tasks (fst (GetTaskByID taskID w)) = tasks w
  /\ users (fst (GetTaskByID taskID w)) = users w.
Proof.
  rewrite GetTaskByID_any. split; [|split; [|split]].
  - by intros ->.
  - intros objID -> ->; simpl.
    destruct (tasks w !! objID) as [stored|]; split.
    + intros t. split; congruence.
    + split; discriminate.
    + intros t. split; discriminate.
    + done.
  - by destruct (ObjectIDFromHex taskID).
  - by destruct (ObjectIDFromHex taskID).
Qed.

Lemma GetTaskByID_lookup_witness :
  GetTaskByID "6878" sampleWorld = (sampleWorld, Err ErrInvalidTaskID)
  /\ snd (GetTaskByID sampleHex sampleWorld) = Ok sampleTask
  /\ snd (GetTaskByID sampleHex emptyWorld) = Err ErrTaskNotFound.
Proof.
  split; [|split].
  - exact (proj1 (GetTaskByID_lookup "6878" sampleWorld) eq_refl).
  - apply (proj1 (proj2 (GetTaskByID_lookup sampleHex sampleWorld))
             sampleID eq_refl eq_refl).
    reflexivity.
  - apply (proj1 (proj2 (GetTaskByID_lookup sampleHex emptyWorld))
             sampleID eq_refl eq_refl).
    reflexivity.
Defined.

(** ** Creating, then reading or deleting *)

(** X2. For any spelling of the new identifier, [GetTaskByID] returns the
    task that [CreateTask] has created with its due date as the database
    holds it, in whole milliseconds: the very record [CreateTask] returned
    when the due date has no digits below the millisecond, and otherwise a
    record that differs from it in those digits only.  That record is among
    the tasks that [GetAllTasks] returns.  All this as long as the calls get
    through. *)
Theorem CreateTask_then_read (task created : Task) (w w' : World) (hex : string) :
  CreateTask task w = (w', Ok created) ->
  ObjectIDFromHex hex = Some (ID created) ->
  (nextCallFails w' = None ->
     snd (GetTaskByID hex w')
     = Ok (mkTask (ID created) (Title created) (Description created)
             (bsonDate (DueDate created)) (Status created)))
  /\ (nextCallFails w' = None -> (DueDate task mod 1000000 = 0)%Z ->
      snd (GetTaskByID hex w') = Ok created)
  /\ (nextCallFails w' = None -> (DueDate task mod 1000000 <> 0)%Z ->
      snd (GetTaskByID hex w') <> Ok created)
  /\ (linkUp 2 w' ->
      exists l : list Task,
        snd (GetAllTasks w') = Ok (Slice l)
        /\ mkTask (ID created) (Title created) (Description created)
             (bsonDate (DueDate created)) (Status created) ∈ l).
Proof.
  intros Hcreate Hhex.
  destruct (CreateTask_Ok _ _ _ _ Hcreate) as (Hc & _ & Htasks & _).
  assert (forall Hlink : nextCallFails w' = None,
            snd (GetTaskByID hex w') = Ok (bsonTask created)) as Hget.
  { intros Hlink. rewrite GetTaskByID_any, Hhex, Hlink, Htasks; simpl.
    by rewrite lookup_insert_eq. }
  split; [exact Hget|]. split; [|split].
  - intros Hlink Hwhole. rewrite (Hget Hlink). unfold bsonTask.
    rewrite Hc; simpl. by rewrite bsonDate_whole.
  - intros Hlink Hfrac. rewrite (Hget Hlink). unfold bsonTask.
    rewrite Hc; simpl. intros [= Heq].
    pose proof (bsonDate_floor (DueDate task)) as [_ Hmod]. by rewrite Heq in Hmod.
  - intros Hlink.
    destruct (linkUp_S _ CallFind _ Hlink) as [Hfind Hlink1].
    destruct (linkUp_S _ CallCursorAll _ Hlink1) as [Hall _].
    rewrite GetAllTasks_any; simpl. rewrite Hfind, Hall; simpl.
    eexists; split; [reflexivity|].
    apply list_elem_of_fmap. exists (ID created, bsonTask created). split; [done|].
    apply elem_of_map_to_list. rewrite Htasks. apply lookup_insert_eq.
Qed.

Lemma CreateTask_then_read_witness :
  snd (GetTaskByID "000000000000000000000001"
         (fst (CreateTask (mkTask 0 "t" "" 63888739200123456789 "pending") emptyWorld)))
    = Ok (mkTask 1 "t" "" 63888739200123000000 "pending").
Proof.
  exact (proj1 (CreateTask_then_read (mkTask 0 "t" "" 63888739200123456789 "pending")
                  (mkTask 1 "t" "" 63888739200123456789 "pending")
                  emptyWorld
                  (fst (CreateTask (mkTask 0 "t" "" 63888739200123456789 "pending")
                          emptyWorld))
                  "000000000000000000000001" eq_refl eq_refl) eq_refl).
Defined.

(** X3. Deleting a task right after its creation succeeds and gives back
    the collection as it was before the creation. *)
Theorem CreateTask_then_DeleteTask (task created : Task) (w w' : World) (hex : string) :
  CreateTask task w = (w', Ok created) ->
  ObjectIDFromHex hex = Some (ID created) ->
  nextCallFails w' = None ->
  snd (DeleteTask hex w') = None
  /\ tasks (fst (DeleteTask hex w')) = tasks w.
Proof.
  intros Hcreate Hhex Hlink.
  destruct (CreateTask_Ok _ _ _ _ Hcreate) as (_ & Hfresh & Htasks & _).
  rewrite DeleteTask_any, Hhex, Hlink, Htasks, lookup_insert_eq; simpl.
  split; [done|]. by apply delete_insert_id.
Qed.

Lemma CreateTask_then_DeleteTask_witness :
  snd (DeleteTask "000000000000000000000001" (fst (CreateTask sampleTask sampleWorld)))
    = None
  /\ tasks (fst (DeleteTask "000000000000000000000001"
                   (fst (CreateTask sampleTask sampleWorld))))
     = tasks sampleWorld.
Proof.
  exact (CreateTask_then_DeleteTask sampleTask
           (mkTask 1 "Implement unit testing" "Tests for all layers" 1753466400 "pending")
           sampleWorld (fst (CreateTask sampleTask sampleWorld))
           "000000000000000000000001" eq_refl eq_refl eq_refl).
Defined.

(** ** Deleting *)

(** X4. A deletion that succeeds removes the document under the identifier
    and nothing else: every other task and every user stays, the collection
    is one document smaller, and a second deletion of the same identifier
    answers [ErrTaskNotFound]. *)
Theorem DeleteTask_removes_one (taskID : string) (w w' : World) :
  DeleteTask taskID w = (w', None) ->
  exists objID : ObjectID,
    ObjectIDFromHex taskID = Some objID
    /\ tasks w' !! objID = None
    /\ (forall other : ObjectID, other <> objID -> tasks w' !! other = tasks w !! other)
    /\ S (size (tasks w')) = size (tasks w)
    /\ users w' = users w
    /\ (nextCallFails w' = None -> snd (DeleteTask taskID w') = Some ErrTaskNotFound).
Proof.
  rewrite DeleteTask_any.
  destruct (ObjectIDFromHex taskID) as [objID|] eqn:Hid; [|done].
  destruct (nextCallFails w) as [msg|]; [done|].
  destruct (tasks w !! objID) as [stored|] eqn:Hstored; [|done].
  intros [= <-]. exists objID. split; [done|]. simpl.
  split; [apply lookup_delete_eq|].
  split; [by intros other Hne; apply lookup_delete_ne|].
  split.
  { rewrite map_size_delete, Hstored.
    assert (size (tasks w) <> 0) as Hsize.
    { intros Hz. apply map_size_empty_iff in Hz. by rewrite Hz in Hstored. }
    simpl. lia. }
  split; [done|].
  intros Hlink. rewrite DeleteTask_any, Hid, Hlink; simpl.
  by rewrite lookup_delete_eq.
Qed.

Lemma DeleteTask_removes_one_witness :
  exists objID : ObjectID,
    ObjectIDFromHex sampleHex = Some objID
    /\ tasks (fst (DeleteTask sampleHex sampleWorld)) !! objID = None.
Proof.
  destruct (DeleteTask_removes_one sampleHex sampleWorld
              (fst (DeleteTask sampleHex sampleWorld)) eq_refl)
    as (objID & Hid & Hgone & _).
  exists objID. split; [exact Hid | exact Hgone].
Defined.

(** ** Updating *)

Lemma mergeTask_idempotent (stored partial : Task) :
  mergeTask (mergeTask stored partial) partial = mergeTask stored partial.
Proof.
  unfold mergeTask; simpl. f_equal; by case_decide.
Qed.

Lemma UpdateTask_Ok (taskID : string) (partial updated : Task) (w w' : World) :
  UpdateTask taskID partial w = (w', Ok updated) ->
  exists (objID : ObjectID) (stored : Task),
    ObjectIDFromHex taskID = Some objID
    /\ ~ noFields partial
    /\ tasks w !! objID = Some stored
    /\ updated = mergeTask stored partial
    /\ tasks w' = <[objID := updated]> (tasks w).
Proof.
  rewrite UpdateTask_any.
  destruct (ObjectIDFromHex taskID) as [objID|] eqn:Hid; [|done].
  destruct (Nat.eqb_spec (size (setFieldsOf partial)) 0) as [Hz|Hz]; [done|].
  destruct (nextCallFails w) as [msg|]; [done|].
  destruct (tasks w !! objID) as [stored|] eqn:Hstored; [|done].
  intros [= <- <-]. exists objID, stored.
  split; [done|]. split; [|done].
  intros Hnone. by apply setFieldsOf_size_zero in Hnone.
Qed.

(** X5. After an update that succeeded, [GetTaskByID] for the same
    identifier returns the record that the update returned. *)
Theorem UpdateTask_then_GetTaskByID (taskID : string) (partial updated : Task)
    (w w' : World) :
  UpdateTask taskID partial w = (w', Ok updated) ->
  nextCallFails w' = None ->
  snd (GetTaskByID taskID w') = Ok updated.
Proof.
  intros Hupd Hlink.
  destruct (UpdateTask_Ok _ _ _ _ _ Hupd) as (objID & stored & Hid & _ & _ & _ & Htasks).
  rewrite GetTaskByID_any, Hid, Hlink, Htasks; simpl.
  by rewrite lookup_insert_eq.
Qed.

Lemma UpdateTask_then_GetTaskByID_witness :
  snd (GetTaskByID sampleHex
         (fst (UpdateTask sampleHex (mkTask 0 "" "" 0 "completed") sampleWorld)))
    = Ok (mkTask sampleID "Implement unit testing" "Tests for all layers" 1753466400
            "completed").
Proof.
  exact (UpdateTask_then_GetTaskByID sampleHex (mkTask 0 "" "" 0 "completed")
           (mkTask sampleID "Implement unit testing" "Tests for all layers" 1753466400
              "completed")
           sampleWorld
           (fst (UpdateTask sampleHex (mkTask 0 "" "" 0 "completed") sampleWorld))
           eq_refl eq_refl).
Defined.

(** X6. An update is idempotent: the same update applied once more returns
    the same record and leaves the collection as the first application left
    it. *)
Theorem UpdateTask_twice (taskID : string) (partial updated : Task) (w w' : World) :
  UpdateTask taskID partial w = (w', Ok updated) ->
  nextCallFails w' = None ->
  snd (UpdateTask taskID partial w') = Ok updated
  /\ tasks (fst (UpdateTask taskID partial w')) = tasks w'.
Proof.
  intros Hupd Hlink.
  destruct (UpdateTask_Ok _ _ _ _ _ Hupd)
    as (objID & stored & Hid & Hsome & _ & Hmerged & Htasks).
  rewrite (UpdateTask_some_field _ _ _ _ Hid Hsome Hlink), Htasks, lookup_insert_eq.
  rewrite Hmerged, mergeTask_idempotent; simpl.
  split; [done|]. by rewrite insert_insert_eq.
Qed.

Lemma UpdateTask_twice_witness :
  snd (UpdateTask sampleHex (mkTask 0 "New title" "" 0 "")
         (fst (UpdateTask sampleHex (mkTask 0 "New title" "" 0 "") sampleWorld)))
    = Ok (mkTask sampleID "New title" "Tests for all layers" 1753466400 "pending").
Proof.
  exact (proj1 (UpdateTask_twice sampleHex (mkTask 0 "New title" "" 0 "")
                  (mkTask sampleID "New title" "Tests for all layers" 1753466400 "pending")
                  sampleWorld
                  (fst (UpdateTask sampleHex (mkTask 0 "New title" "" 0 "") sampleWorld))
                  eq_refl eq_refl)).
Defined.

(** X7. [UpdateTask] never adds or removes a document, whatever its
    arguments and the state of the link: the set of stored identifiers and
    the users are as before, documents under other identifiers are untouched,
    the identifier in the update record is ignored, and when the call returns
    an error (not found, no fields, invalid id, driver error) no document has
    changed. *)
Theorem UpdateTask_keeps_documents (taskID : string) (partial : Task) (w : World) :
  dom (tasks (fst (UpdateTask taskID partial w))) = dom (tasks w)
  /\ users (fst (UpdateTask taskID partial w)) = users w
  /\ (forall objID other : ObjectID,
        ObjectIDFromHex taskID = Some objID -> other <> objID ->
        tasks (fst (UpdateTask taskID partial w)) !! other = tasks w !! other)
  /\ (forall e : error,
        snd (UpdateTask taskID partial w) = Err e ->
        tasks (fst (UpdateTask taskID partial w)) = tasks w)
  /\ (forall supplied : ObjectID,
        UpdateTask taskID
          (mkTask supplied (Title partial) (Description partial) (DueDate partial)
             (Status partial)) w
        = UpdateTask taskID partial w).
Proof.
  split; [|split; [|split; [|split; [|done]]]]; rewrite UpdateTask_any;
    destruct (ObjectIDFromHex taskID) as [objID|] eqn:Hid; try done;
    destruct (Nat.eqb (size (setFieldsOf partial)) 0) eqn:Hz; try done;
    destruct (nextCallFails w); try done;
    destruct (tasks w !! objID) as [stored|] eqn:Hstored; try done; simpl.
  - by apply dom_insert_lookup_L.
  - intros ? other [= <-] Hne. by rewrite lookup_insert_ne.
Qed.

(** ** Listing *)

(** X8. When [GetAllTasks] succeeds, the slice it returns is not nil and
    holds exactly the stored documents, as many as the collection has, and
    the collection is unchanged; when every document sits under its own
    identifier, no identifier occurs twice in the listing. *)
Theorem GetAllTasks_lists_stored (w w' : World) (ts : slice Task) :
  GetAllTasks w = (w', Ok ts) ->
  exists l : list Task,
    ts = Slice l
    /\ (forall t : Task, t ∈ l <-> exists id : ObjectID, tasks w !! id = Some t)
    /\ length l = size (tasks w)
    /\ tasks w' = tasks w
    /\ (idsAreKeys w -> NoDup (ID <$> l)).
Proof.
  rewrite GetAllTasks_any; simpl.
  destruct (nextCallFails w); [done|].
  destruct (nextCallFails (afterCall CallFind w)); [done|].
  intros [= <- <-]. eexists; split; [reflexivity|].
  split; [|split; [|split]].
  - intros t. rewrite list_elem_of_fmap. split.
    + intros ([id t'] & -> & Hin). exists id. by apply elem_of_map_to_list.
    + intros [id Hid]. exists (id, t). split; [done|]. by apply elem_of_map_to_list.
  - by rewrite length_fmap, length_map_to_list.
  - done.
  - intros Hkeys.
    assert (ID <$> (map_to_list (tasks w)).*2 = (map_to_list (tasks w)).*1) as ->.
    { rewrite <- list_fmap_compose. apply list_fmap_ext.
      intros i [id t] Hin; simpl. apply Hkeys.
      apply elem_of_map_to_list, list_elem_of_lookup. by exists i. }
    apply NoDup_fst_map_to_list.
Qed.

Lemma GetAllTasks_lists_stored_witness :
  exists l : list Task,
    snd (GetAllTasks sampleWorld) = Ok (Slice l) /\ length l = 1.
Proof.
  destruct (GetAllTasks_lists_stored sampleWorld (fst (GetAllTasks sampleWorld))
              (Slice [sampleTask]) eq_refl)
    as (l & Hl & _ & Hlen & _).
  exists l. split; [|exact Hlen].
  rewrite <- Hl. reflexivity.
Defined.

(** ** The user repository, whatever the state of the link *)

Lemma CreateUser_any (user : User) (w : World) :
  let user1 :=
    if IsZero (UserID user)
    then mkUser (oid_gen w (oid_used w)) (Username user) (Password user) (Role user)
    else user in
  let w1 :=
    afterCall CallInsertOne
      (if IsZero (UserID user) then with_oid_used (S (oid_used w)) w else w) in
  CreateUser user w =
    match nextCallFails w with
    | Some msg => (w1, (user1, Some (ErrDriver msg)))
    | None =>
        if usersDuplicate user1 w then (w1, (user1, Some ErrUserExists))
        else (with_users (<[UserID user1 := user1]> (users w)) w1, (user1, None))
    end.
Proof.
  destruct (nextCallFails w) as [msg|] eqn:Hlink; [|by apply CreateUser_run].
  simpl. unfold CreateUser, NewObjectID, usersInsertOne, bind.
  destruct (IsZero (UserID user)); simpl.
  - by rewrite (roundTrip_fails _ (with_oid_used _ w) msg).
  - by rewrite (roundTrip_fails _ w msg).
Qed.

Lemma GetByUsername_any (username : string) (w : World) :
  GetByUsername username w =
    (afterCall CallFindOne w,
     match nextCallFails w with
     | Some msg => Err (ErrDriver msg)
     | None =>
         match filter (fun u => Username u = username) (map_to_list (users w)).*2 with
         | user :: _ => Ok user
         | [] => Err ErrUserNotFound
         end
     end).
Proof.
  unfold GetByUsername, usersFindOneByUsername, bind. rewrite roundTrip_any.
  destruct (nextCallFails w) as [msg|]; simpl; [done|].
  by destruct (filter _ _).
Qed.

Lemma GetUserById_any (userID : ObjectID) (w : World) :
  GetUserById userID w =
    (afterCall CallFindOne w,
     match nextCallFails w with
     | Some msg => Err (ErrDriver msg)
     | None =>
         match users w !! userID with
         | Some user => Ok user
         | None => Err ErrUserNotFound
         end
     end).
Proof.
  unfold GetUserById, usersFindOneByID, bind. rewrite roundTrip_any.
  destruct (nextCallFails w) as [msg|]; simpl; [done|].
  by destruct (users w !! userID).
Qed.

(** ** Driver errors *)

(** X9. When the call to the driver fails (time-out, lost connection),
    every function of the task repository returns the driver's error as it
    is and leaves the collection untouched; for [GetAllTasks] this holds for
    a failure of [Find] and for a failure of [cursor.All] alike. *)
Theorem task_repository_driver_error (msg : string) (w : World) :
  nextCallFails w = Some msg ->
  (forall task : Task,
     snd (CreateTask task w) = Err (ErrDriver msg)
     /\ tasks (fst (CreateTask task w)) = tasks w)
  /\ (forall (taskID : string) (objID : ObjectID),
        ObjectIDFromHex taskID = Some objID ->
        snd (DeleteTask taskID w) = Some (ErrDriver msg)
        /\ tasks (fst (DeleteTask taskID w)) = tasks w)
  /\ (forall (taskID : string) (objID : ObjectID),
        ObjectIDFromHex taskID = Some objID ->
        snd (GetTaskByID taskID w) = Err (ErrDriver msg)
        /\ tasks (fst (GetTaskByID taskID w)) = tasks w)
  /\ (forall (taskID : string) (objID : ObjectID) (partial : Task),
        ObjectIDFromHex taskID = Some objID ->
        ~ noFields partial ->
        snd (UpdateTask taskID partial w) = Err (ErrDriver msg)
        /\ tasks (fst (UpdateTask taskID partial w)) = tasks w)
  /\ snd (GetAllTasks w) = Err (ErrDriver msg)
  /\ tasks (fst (GetAllTasks w)) = tasks w
  /\ (forall w0 : World,
        nextCallFails w0 = None ->
        afterCall CallFind w0 = w ->
        snd (GetAllTasks w0) = Err (ErrDriver msg)
        /\ tasks (fst (GetAllTasks w0)) = tasks w0).
Proof.
  intros Hlink. split; [|split; [|split; [|split; [|split; [|split]]]]].
  - intros task. by rewrite CreateTask_any, Hlink.
  - intros taskID objID Hid. by rewrite DeleteTask_any, Hid, Hlink.
  - intros taskID objID Hid. by rewrite GetTaskByID_any, Hid, Hlink.
  - intros taskID objID partial Hid Hsome. rewrite UpdateTask_any, Hid, Hlink.
    destruct (Nat.eqb_spec (size (setFieldsOf partial)) 0) as [Hz|Hz]; [|done].
    by apply setFieldsOf_size_zero in Hz.
  - by rewrite GetAllTasks_any, Hlink.
  - by rewrite GetAllTasks_any, Hlink.
  - intros w0 Hfirst <-. rewrite GetAllTasks_any; simpl. by rewrite Hfirst, Hlink.
Qed.

Lemma task_repository_driver_error_witness :
  let w := with_link [Some "context deadline exceeded"] sampleWorld in
  snd (DeleteTask sampleHex w) = Some (ErrDriver "context deadline exceeded")
  /\ tasks (fst (DeleteTask sampleHex w)) = tasks w.
Proof.
  intros w.
  exact (proj1 (proj2 (task_repository_driver_error "context deadline exceeded" w eq_refl))
           sampleHex sampleID eq_refl).
Defined.

(** X10. When the call to the driver fails, [CreateUser], [GetByUsername]
    and [GetUserById] return the driver's error as it is (in particular
    [CreateUser] does not report it as [ErrUserExists]) and leave the
    collection untouched. *)
Theorem user_repository_driver_error (msg : string) (w : World) :
  nextCallFails w = Some msg ->
  (forall user : User,
     snd (snd (CreateUser user w)) = Some (ErrDriver msg)
     /\ users (fst (CreateUser user w)) = users w)
  /\ (forall username : string,
        snd (GetByUsername username w) = Err (ErrDriver msg)
        /\ users (fst (GetByUsername username w)) = users w)
  /\ (forall userID : ObjectID,
        snd (GetUserById userID w) = Err (ErrDriver msg)
        /\ users (fst (GetUserById userID w)) = users w).
Proof.
  intros Hlink. split; [|split].
  - intros user. rewrite CreateUser_any, Hlink; simpl.
    by destruct (IsZero (UserID user)).
  - intros username. by rewrite GetByUsername_any, Hlink.
  - intros userID. by rewrite GetUserById_any, Hlink.
Qed.

Lemma user_repository_driver_error_witness :
  let w := with_link [Some "connection reset"] emptyWorld in
  snd (snd (CreateUser (mkUser 0 "alice" "$2a$10$hash" "admin") w))
    = Some (ErrDriver "connection reset")
  /\ users (fst (CreateUser (mkUser 0 "alice" "$2a$10$hash" "admin") w)) = users w.
Proof.
  intros w.
  exact (proj1 (user_repository_driver_error "connection reset" w eq_refl)
           (mkUser 0 "alice" "$2a$10$hash" "admin")).
Defined.

(** ** What [InsertOne] lets through *)

Lemma usersDuplicate_false (user : User) (w : World) :
  usersDuplicate user w = false ->
  users w !! UserID user = None
  /\ (unique_usernames w = true ->
      forall (id : ObjectID) (u : User),
        users w !! id = Some u -> Username u <> Username user).
Proof.
  unfold usersDuplicate. intros Hdup. apply orb_false_iff in Hdup as [Hid Hname].
  apply bool_decide_eq_false in Hid. split.
  - destruct (users w !! UserID user) eqn:Hl; [|done]. by destruct Hid.
  - intros Huniq id u Hu Heq. rewrite Huniq in Hname; simpl in Hname.
    apply bool_decide_eq_false in Hname. apply Hname. by exists id, u.
Qed.

(** ** Reading a user *)

Lemma stored_user_elem (w : World) (u : User) :
  u ∈ (map_to_list (users w)).*2 <-> exists id : ObjectID, users w !! id = Some u.
Proof.
  rewrite list_elem_of_fmap. split.
  - intros ([id u'] & -> & Hin). exists id. by apply elem_of_map_to_list.
  - intros [id Hid]. exists (id, u). split; [done|]. by apply elem_of_map_to_list.
Qed.

Lemma GetByUsername_through (username : string) (w : World) :
  nextCallFails w = None ->
  match snd (GetByUsername username w) with
  | Ok u => Username u = username /\ exists id : ObjectID, users w !! id = Some u
  | Err e =>
      e = ErrUserNotFound
      /\ forall (id : ObjectID) (u : User), users w !! id = Some u -> Username u <> username
  end.
Proof.
  intros Hlink. rewrite GetByUsername_any, Hlink; simpl.
  destruct (filter (fun u => Username u = username) (map_to_list (users w)).*2)
    as [|found rest] eqn:Hfilter.
  - split; [done|]. intros id u Hu Hname.
    eapply (filter_nil_not_elem_of _ _ u Hfilter); [exact Hname|].
    apply stored_user_elem. by exists id.
  - assert (found ∈ filter (fun u => Username u = username) (map_to_list (users w)).*2)
      as Hin by (rewrite Hfilter; apply list_elem_of_here).
    apply list_elem_of_filter in Hin as [Hname Hstored].
    by apply stored_user_elem in Hstored.
Qed.

(** X13. When the call gets through, a user that [GetByUsername] returns is
    a stored user with the username asked for, and [ErrUserNotFound] is
    returned exactly when no stored user has that username.  When usernames
    are unique in the collection, the user returned is the stored user with
    that username.  The collection is never changed. *)
Theorem GetByUsername_finds (username : string) (w : World) :
  nextCallFails w = None ->
  (forall u : User,
     snd (GetByUsername username w) = Ok u ->
     Username u = username /\ exists id : ObjectID, users w !! id = Some u)
  /\ (snd (GetByUsername username w) = Err ErrUserNotFound
      <-> forall (id : ObjectID) (u : User),
            users w !! id = Some u -> Username u <> username)
  /\ (usernamesUnique w ->
      forall (id : ObjectID) (u : User),
        users w !! id = Some u -> Username u = username ->
        snd (GetByUsername username w) = Ok u)
  /\ users (fst (GetByUsername username w)) = users w.
Proof.
  intros Hlink. pose proof (GetByUsername_through username w Hlink) as Hres.
  split; [|split; [|split]].
  - intros u Hu. by rewrite Hu in Hres.
  - split.
    + intros He. rewrite He in Hres. by destruct Hres.
    + intros Hnone. destruct (snd (GetByUsername username w)) as [u|e].
      * destruct Hres as [Hname [id Hid]]. by destruct (Hnone id u Hid).
      * by destruct Hres as [-> _].
  - intros Huniq id u Hu Hname.
    destruct (snd (GetByUsername username w)) as [found|e].
    + destruct Hres as [Hfname [fid Hfid]].
      assert (fid = id) as <- by (apply (Huniq fid id found u); congruence).
      congruence.
    + destruct Hres as [_ Hnone]. by destruct (Hnone id u Hu).
  - by rewrite GetByUsername_any.
Qed.

Lemma GetByUsername_finds_witness :
  let alice := mkUser 7 "alice" "$2a$10$hash" "admin" in
  let w := with_users {[7%N := alice]} emptyWorld in
  snd (GetByUsername "alice" w) = Ok alice
  /\ snd (GetByUsername "bob" w) = Err ErrUserNotFound.
Proof.
  intros alice w. split.
  - reflexivity.
  - apply (proj2 (proj1 (proj2 (GetByUsername_finds "bob" w eq_refl)))).
    intros id u Hu. simpl in Hu. apply lookup_singleton_Some in Hu as [_ <-].
    discriminate.
Defined.

(** X14. When the call gets through, [GetUserById] returns a user exactly
    when that user is the document stored under the identifier, and
    [ErrUserNotFound] exactly when nothing is stored there; the collection is
    never changed. *)
Theorem GetUserById_lookup (userID : ObjectID) (w : World) :
  nextCallFails w = None ->
  (forall u : User, snd (GetUserById userID w) = Ok u <-> users w !! userID = Some u)
  /\ (snd (GetUserById userID w) = Err ErrUserNotFound <-> users w !! userID = None)
  /\ users (fst (GetUserById userID w)) = users w.
Proof.
  intros Hlink. rewrite GetUserById_any, Hlink; simpl.
  destruct (users w !! userID) as [stored|]; (split; [|split; [|done]]).
  - intros u. split; congruence.
  - split; discriminate.
  - intros u. split; discriminate.
  - done.
Qed.

Lemma GetUserById_lookup_witness :
  let alice := mkUser 7 "alice" "$2a$10$hash" "admin" in
  let w := with_users {[7%N := alice]} emptyWorld in
  snd (GetUserById 7 w) = Ok alice /\ snd (GetUserById 8 w) = Err ErrUserNotFound.
Proof.
  intros alice w. split.
  - apply (proj1 (GetUserById_lookup 7 w eq_refl)). reflexivity.
  - apply (proj1 (proj2 (GetUserById_lookup 8 w eq_refl))). reflexivity.
Defined.

(** ** Creating a user *)

Lemma CreateUser_stored (user user' : User) (w w' : World) :
  CreateUser user w = (w', (user', None)) ->
  users w !! UserID user' = None
  /\ users w' = <[UserID user' := user']> (users w)
  /\ Username user' = Username user
  /\ Password user' = Password user
  /\ Role user' = Role user
  /\ (unique_usernames w = true ->
      forall (id : ObjectID) (u : User),
        users w !! id = Some u -> Username u <> Username user).
Proof.
  rewrite CreateUser_any; simpl.
  set (user1 := if IsZero (UserID user) then _ else user).
  assert (Username user1 = Username user /\ Password user1 = Password user
          /\ Role user1 = Role user) as (Hn & Hp & Hr).
  { unfold user1. by destruct (IsZero (UserID user)). }
  destruct (nextCallFails w); [done|].
  destruct (usersDuplicate user1 w) eqn:Hdup; [done|].
  destruct (usersDuplicate_false _ _ Hdup) as [Hfresh Hnames].
  intros [= <- <-]; simpl. repeat (split; [done|]).
  intros Huniq id u Hu. rewrite <- Hn. by apply (Hnames Huniq id u).
Qed.

(** X15. [CreateUser] either returns no error and has stored exactly one
    new document, the caller's struct as the call left it, under an
    identifier that was free, or returns an error and has stored nothing; an
    existing document is never replaced. *)
Theorem CreateUser_stores_one_or_nothing (user user' : User) (w w' : World)
    (err : option error) :
  CreateUser user w = (w', (user', err)) ->
  match err with
  | None =>
      users w !! UserID user' = None
      /\ users w' = <[UserID user' := user']> (users w)
      /\ size (users w') = S (size (users w))
      /\ Username user' = Username user
      /\ Password user' = Password user
      /\ Role user' = Role user
  | Some _ => users w' = users w
  end
  /\ tasks w' = tasks w
  /\ (forall (id : ObjectID) (u : User), users w !! id = Some u -> users w' !! id = Some u).
Proof.
  rewrite CreateUser_any; simpl.
  set (user1 := if IsZero (UserID user) then _ else user).
  assert (Username user1 = Username user /\ Password user1 = Password user
          /\ Role user1 = Role user) as (Hn & Hp & Hr).
  { unfold user1. by destruct (IsZero (UserID user)). }
  destruct (nextCallFails w).
  { intros [= <- <- <-]. by destruct (IsZero (UserID user)). }
  destruct (usersDuplicate user1 w) eqn:Hdup.
  { intros [= <- <- <-]. by destruct (IsZero (UserID user)). }
  destruct (usersDuplicate_false _ _ Hdup) as [Hfresh _].
  intros [= <- <- <-]; simpl. split; [|split].
  - split; [done|]. split; [done|]. split; [by apply map_size_insert_None|done].
  - by destruct (IsZero (UserID user)).
  - intros id u Hu. rewrite lookup_insert_ne; [done|]. congruence.
Qed.

Lemma CreateUser_stores_one_or_nothing_witness :
  size (users (fst (CreateUser (mkUser 0 "alice" "$2a$10$hash" "admin") emptyWorld))) = 1.
Proof.
  pose proof (CreateUser_stores_one_or_nothing (mkUser 0 "alice" "$2a$10$hash" "admin")
                (mkUser 1 "alice" "$2a$10$hash" "admin") emptyWorld
                (fst (CreateUser (mkUser 0 "alice" "$2a$10$hash" "admin") emptyWorld))
                None eq_refl) as ((_ & _ & Hsize & _) & _).
  exact Hsize.
Defined.

(** X16. A record that comes with an identifier under which a user is
    already stored is refused with [ErrUserExists] although its username may
    be new: the driver's duplicate-key error for [_id] is reported like a
    taken username.  Nothing is stored. *)
Theorem CreateUser_taken_id (user existing : User) (w : World) :
  UserID user <> NilObjectID ->
  users w !! UserID user = Some existing ->
  nextCallFails w = None ->
  snd (CreateUser user w) = (user, Some ErrUserExists)
  /\ users (fst (CreateUser user w)) = users w.
Proof.
  intros Hid Hstored Hlink. rewrite CreateUser_any, Hlink; simpl.
  unfold IsZero. rewrite (bool_decide_eq_false_2 _ Hid).
  unfold usersDuplicate. rewrite Hstored.
  rewrite (bool_decide_eq_true_2 (is_Some (Some existing))) by by eexists.
  done.
Qed.

Lemma CreateUser_taken_id_witness :
  let alice := mkUser 7 "alice" "$2a$10$hash" "admin" in
  let w := with_users {[7%N := alice]} emptyWorld in
  snd (CreateUser (mkUser 7 "bob" "$2a$10$other" "user") w)
    = (mkUser 7 "bob" "$2a$10$other" "user", Some ErrUserExists)
  /\ users (fst (CreateUser (mkUser 7 "bob" "$2a$10$other" "user") w)) = users w.
Proof.
  intros alice w.
  apply (CreateUser_taken_id (mkUser 7 "bob" "$2a$10$other" "user") alice w).
  - discriminate.
  - reflexivity.
  - reflexivity.
Defined.

(** X17. In a collection with the unique index, a user that [CreateUser]
    has stored is what [GetByUsername] returns for its username and what
    [GetUserById] returns for the identifier left in the caller's struct. *)
Theorem CreateUser_then_read (user user' : User) (w w' : World) :
  unique_usernames w = true ->
  CreateUser user w = (w', (user', None)) ->
  nextCallFails w' = None ->
  snd (GetByUsername (Username user) w') = Ok user'
  /\ snd (GetUserById (UserID user') w') = Ok user'.
Proof.
  intros Huniq Hcreate Hlink.
  destruct (CreateUser_stored _ _ _ _ Hcreate) as (_ & Husers & Hname & _ & _ & Hnames).
  assert (users w' !! UserID user' = Some user') as Hstored.
  { rewrite Husers. apply lookup_insert_eq. }
  split.
  - pose proof (GetByUsername_through (Username user) w' Hlink) as Hres.
    destruct (snd (GetByUsername (Username user) w')) as [found|e].
    + destruct Hres as [Hfname (fid & Hfid)].
      destruct (decide (fid = UserID user')) as [->|Hne]; [congruence|].
      exfalso. rewrite Husers, lookup_insert_ne in Hfid by done.
      by apply (Hnames Huniq fid found Hfid).
    + destruct Hres as [_ Hnone]. by destruct (Hnone (UserID user') user' Hstored).
  - by rewrite GetUserById_any, Hlink, Hstored.
Qed.

Lemma CreateUser_then_read_witness :
  snd (GetByUsername "alice"
         (fst (CreateUser (mkUser 0 "alice" "$2a$10$hash" "admin") emptyWorld)))
    = Ok (mkUser 1 "alice" "$2a$10$hash" "admin").
Proof.
  exact (proj1 (CreateUser_then_read (mkUser 0 "alice" "$2a$10$hash" "admin")
                  (mkUser 1 "alice" "$2a$10$hash" "admin") emptyWorld
                  (fst (CreateUser (mkUser 0 "alice" "$2a$10$hash" "admin") emptyWorld))
                  eq_refl eq_refl eq_refl)).
Defined.

(** * Further properties of the controllers *)

(** X18. The controllers that take an identifier from the path answer an
    identifier that is not an ObjectID with 400 and the fixed message, before
    anything else: the use case is not run, the state is untouched, and
    [UpdateTask] does not look at the body. *)
Theorem controllers_reject_malformed_id (S : Type) (id : string) (s : S) :
  ObjectIDFromHex id = None ->
  (forall uc : string -> state S (option error),
     TaskController_DeleteTask uc id s
     = (s, Respond StatusBadRequest (VH [("error", VString "Invalid task ID format")])))
  /\ (forall uc : string -> state S (result Task),
        TaskController_GetTaskByID uc id s
        = (s, Respond StatusBadRequest (VH [("error", VString "Invalid task ID format")])))
  /\ (forall (uc : string -> Task -> state S (result Task)) (b : body Task),
        TaskController_UpdateTask uc id b s
        = (s, Respond StatusBadRequest (VH [("error", VString "Invalid task ID format")])))
  /\ (forall uc : string -> state S (option error),
        UserController_PromoteToAdmin uc id s
        = (s, Respond StatusBadRequest (VH [("error", VString "Invalid user ID format")]))).
Proof.
  intros Hid.
  unfold TaskController_DeleteTask, TaskController_GetTaskByID, TaskController_UpdateTask,
    UserController_PromoteToAdmin.
  rewrite Hid. done.
Qed.

Lemma controllers_reject_malformed_id_witness :
  TaskController_DeleteTask DeleteTask "12" sampleWorld
  = (sampleWorld, Respond StatusBadRequest (VH [("error", VString "Invalid task ID format")])).
Proof.
  exact (proj1 (controllers_reject_malformed_id World "12" sampleWorld eq_refl) DeleteTask).
Defined.

(** X19. For a well-formed identifier the task controllers answer 200
    exactly when the use case reports no error and 404 exactly when it
    reports [ErrTaskNotFound]; any other error is a 500 from [DeleteTask] and
    [GetTaskByID] and a 400 from [UpdateTask].  The state is the one the use
    case leaves. *)
Theorem task_controllers_statuses (S : Type) (id : string) (objID : ObjectID) (s : S) :
  ObjectIDFromHex id = Some objID ->
  (forall uc : string -> state S (option error),
     let status := statusOf (snd (TaskController_DeleteTask uc id s)) in
     fst (TaskController_DeleteTask uc id s) = fst (uc id s)
     /\ (status = Some StatusOK <-> snd (uc id s) = None)
     /\ (status = Some StatusNotFound <-> snd (uc id s) = Some ErrTaskNotFound)
     /\ (status = Some StatusInternalServerError
         <-> exists e : error, snd (uc id s) = Some e /\ e <> ErrTaskNotFound))
  /\ (forall uc : string -> state S (result Task),
        let status := statusOf (snd (TaskController_GetTaskByID uc id s)) in
        fst (TaskController_GetTaskByID uc id s) = fst (uc id s)
        /\ (status = Some StatusOK <-> exists t : Task, snd (uc id s) = Ok t)
        /\ (status = Some StatusNotFound <-> snd (uc id s) = Err ErrTaskNotFound)
        /\ (status = Some StatusInternalServerError
            <-> exists e : error, snd (uc id s) = Err e /\ e <> ErrTaskNotFound))
  /\ (forall (uc : string -> Task -> state S (result Task)) (task : Task),
        oneofStatus (Status task) = true ->
        let status := statusOf (snd (TaskController_UpdateTask uc id (Decoded task) s)) in
        fst (TaskController_UpdateTask uc id (Decoded task) s) = fst (uc id task s)
        /\ (status = Some StatusOK <-> exists t : Task, snd (uc id task s) = Ok t)
        /\ (status = Some StatusNotFound <-> snd (uc id task s) = Err ErrTaskNotFound)
        /\ (status = Some StatusBadRequest
            <-> exists e : error, snd (uc id task s) = Err e /\ e <> ErrTaskNotFound)).
Proof.
  intros Hid. split; [|split].
  - intros uc. unfold TaskController_DeleteTask, bind. rewrite Hid.
    destruct (uc id s) as [s' [e|]]; simpl.
    + case_bool_decide as He; simpl; subst.
      * split; [done|]. split; [done|]. split; [done|].
        split; [done|]. by intros (e & [= <-] & Hne).
      * split; [done|]. split; [done|]. split; [split; [done|congruence]|].
        split; [|done]. intros _. by exists e.
    + split; [done|]. split; [done|]. split; [done|].
      split; [done|]. by intros (e & [=] & _).
  - intros uc. unfold TaskController_GetTaskByID, bind. rewrite Hid.
    destruct (uc id s) as [s' [t|e]]; simpl.
    + split; [done|]. split; [split; [by exists t|done]|]. split; [done|].
      split; [done|]. by intros (e & [=] & _).
    + case_bool_decide as He; simpl; subst.
      * split; [done|]. split; [split; [done|by intros [t [=]]]|]. split; [done|].
        split; [done|]. by intros (e & [= <-] & Hne).
      * split; [done|]. split; [split; [done|by intros [t [=]]]|].
        split; [split; [done|congruence]|].
        split; [|done]. intros _. by exists e.
  - intros uc task Hstatus.
    unfold TaskController_UpdateTask, ShouldBindJSONTask, bind. rewrite Hid, Hstatus.
    destruct (uc id task s) as [s' [t|e]]; simpl.
    + split; [done|]. split; [split; [by exists t|done]|]. split; [done|].
      split; [done|]. by intros (e & [=] & _).
    + case_bool_decide as He; simpl; subst.
      * split; [done|]. split; [split; [done|by intros [t [=]]]|]. split; [done|].
        split; [done|]. by intros (e & [= <-] & Hne).
      * split; [done|]. split; [split; [done|by intros [t [=]]]|].
        split; [split; [done|congruence]|].
        split; [|done]. intros _. by exists e.
Qed.

Lemma task_controllers_statuses_witness :
  statusOf (snd (TaskController_DeleteTask DeleteTask sampleHex emptyWorld))
    = Some StatusNotFound.
Proof.
  apply (proj1 (proj2 (proj2 (proj1 (task_controllers_statuses World sampleHex sampleID
                                       emptyWorld eq_refl) DeleteTask)))).
  reflexivity.
Defined.

(** X20. [UpdateTask] validates the status like [CreateTask]: a body
    whose status is not pending, in_progress or completed, in particular a
    body without status, is answered with 400 and the use case is not run.
    So a task that reaches the use case always has its status set, and the
    repository's [UpdateTask] never answers it with the no-fields error. *)
Theorem UpdateTask_body_needs_status (S : Type)
    (uc : string -> Task -> state S (result Task)) (id : string) (objID : ObjectID)
    (task : Task) (s : S) :
  ObjectIDFromHex id = Some objID ->
  (oneofStatus (Status task) = false ->
     exists msg : string,
       TaskController_UpdateTask uc id (Decoded task) s
       = (s, Respond StatusBadRequest (VH [("error", VString msg)])))
  /\ (Status task = "" -> oneofStatus (Status task) = false)
  /\ (forall b : body Task,
        ShouldBindJSONTask b = inr task ->
        ~ noFields task
        /\ forall w : World, snd (UpdateTask id task w) <> Err ErrNoFieldsProvided).
Proof.
  intros Hid. split; [|split].
  - intros Hbad. unfold TaskController_UpdateTask, ShouldBindJSONTask.
    rewrite Hid, Hbad. by eexists.
  - by intros ->.
  - intros b Hbind.
    assert (Status task <> "") as Hstatus.
    { destruct b as [msg|t]; simpl in Hbind; [done|].
      destruct (oneofStatus (Status t)) eqn:Hone; [|done].
      injection Hbind as ->. intros Hempty. by rewrite Hempty in Hone. }
    assert (~ noFields task) as Hsome by (by intros (_ & _ & _ & Hs)).
    split; [done|]. intros w. rewrite UpdateTask_any, Hid.
    destruct (Nat.eqb_spec (size (setFieldsOf task)) 0) as [Hz|Hz].
    { by apply setFieldsOf_size_zero in Hz. }
    destruct (nextCallFails w); [done|]. by destruct (tasks w !! objID).
Qed.

Lemma UpdateTask_body_needs_status_witness :
  exists msg : string,
    TaskController_UpdateTask UpdateTask sampleHex
      (Decoded (mkTask 0 "New title" "" 0 "")) sampleWorld
    = (sampleWorld, Respond StatusBadRequest (VH [("error", VString msg)])).
Proof.
  exact (proj1 (UpdateTask_body_needs_status World UpdateTask sampleHex sampleID
                  (mkTask 0 "New title" "" 0 "") sampleWorld eq_refl) eq_refl).
Defined.

(** X21. [Register] answers 201 exactly when the use case reports no
    error and 409 exactly when it reports [ErrUserExists], any other error
    being a 400; a body that does not bind is a 400 without the use case
    being run.  [PromoteToAdmin], for a well-formed identifier, answers 200
    exactly when the use case reports no error and 404 exactly when it reports
    [ErrUserNotFound], any other error being a 400. *)
Theorem user_controllers_statuses (S : Type) (uc : User -> state S (option error))
    (ucp : string -> state S (option error)) (user : User) (id : string)
    (objID : ObjectID) (s : S) :
  ObjectIDFromHex id = Some objID ->
  (let status := statusOf (snd (UserController_Register uc (inr user) s)) in
   fst (UserController_Register uc (inr user) s) = fst (uc user s)
   /\ (status = Some StatusCreated <-> snd (uc user s) = None)
   /\ (status = Some StatusConflict <-> snd (uc user s) = Some ErrUserExists)
   /\ (status = Some StatusBadRequest
       <-> exists e : error, snd (uc user s) = Some e /\ e <> ErrUserExists))
  /\ (forall msg : string,
        UserController_Register uc (inl msg) s
        = (s, Respond StatusBadRequest (VH [("error", VString msg)])))
  /\ (let status := statusOf (snd (UserController_PromoteToAdmin ucp id s)) in
      fst (UserController_PromoteToAdmin ucp id s) = fst (ucp id s)
      /\ (status = Some StatusOK <-> snd (ucp id s) = None)
      /\ (status = Some StatusNotFound <-> snd (ucp id s) = Some ErrUserNotFound)
      /\ (status = Some StatusBadRequest
          <-> exists e : error, snd (ucp id s) = Some e /\ e <> ErrUserNotFound)).
Proof.
  intros Hid. split; [|split; [done|]].
  - unfold UserController_Register, bind.
    destruct (uc user s) as [s' [e|]]; simpl.
    + case_bool_decide as He; simpl; subst.
      * split; [done|]. split; [done|]. split; [done|].
        split; [done|]. by intros (e & [= <-] & Hne).
      * split; [done|]. split; [done|]. split; [split; [done|congruence]|].
        split; [|done]. intros _. by exists e.
    + split; [done|]. split; [done|]. split; [done|].
      split; [done|]. by intros (e & [=] & _).
  - unfold UserController_PromoteToAdmin, bind. rewrite Hid.
    destruct (ucp id s) as [s' [e|]]; simpl.
    + case_bool_decide as He; simpl; subst.
      * split; [done|]. split; [done|]. split; [done|].
        split; [done|]. by intros (e & [= <-] & Hne).
      * split; [done|]. split; [done|]. split; [split; [done|congruence]|].
        split; [|done]. intros _. by exists e.
    + split; [done|]. split; [done|]. split; [done|].
      split; [done|]. by intros (e & [=] & _).
Qed.

Lemma user_controllers_statuses_witness :
  let register := fun u : User => bind (CreateUser u) (fun r => ret (snd r)) in
  let alice := mkUser 7 "alice" "$2a$10$hash" "admin" in
  let w := with_users {[7%N := alice]} emptyWorld in
  statusOf (snd (UserController_Register register
                   (inr (mkUser 0 "alice" "$2a$10$other" "")) w))
    = Some StatusConflict.
Proof.
  intros register alice w.
  apply (proj1 (proj2 (proj2 (proj1 (user_controllers_statuses World register
                                       (fun _ => ret None)
                                       (mkUser 0 "alice" "$2a$10$other" "")
                                       sampleHex sampleID w eq_refl))))).
  reflexivity.
Defined.

(** X22. A login that the use case refuses is answered with the error
    alone, 401 for [ErrInvalidCredentials] and 500 for any other error:
    neither the token nor the user that the use case may have returned next
    to the error appears in the response.  A body that does not bind is a 400
    and the use case is not run.  If the use case returns neither an error nor
    a user, the handler panics on the nil user. *)
Theorem Login_refused (S : Type) (uc : UserUseCase S) (creds : Credentials) (s s' : S)
    (token : string) (user : option User) (err : option error) :
  ucLogin uc creds s = (s', (token, user, err)) ->
  (forall e : error,
     err = Some e ->
     UserController_Login uc (inr creds) s
     = (s', Respond (if bool_decide (e = ErrInvalidCredentials)
                     then StatusUnauthorized else StatusInternalServerError)
              (VH [("error", VErrorText e)])))
  /\ (err = None -> user = None -> UserController_Login uc (inr creds) s = (s', Panic))
  /\ (forall msg : string,
        UserController_Login uc (inl msg) s
        = (s, Respond StatusBadRequest (VH [("error", VString msg)])))
  /\ (statusOf (snd (UserController_Login uc (inr creds) s)) = Some StatusOK
      <-> err = None /\ is_Some user).
Proof.
  intros Huc. unfold UserController_Login, bind. rewrite Huc.
  split; [|split; [|split; [done|]]].
  - intros e ->. destruct user; by case_bool_decide.
  - by intros -> ->.
  - destruct user as [u|], err as [e|]; simpl.
    + case_bool_decide; simpl; (split; [done|by intros [[=] _]]).
    + split; [by intros _; split; [|eexists]|done].
    + case_bool_decide; simpl; (split; [done|by intros [[=] _]]).
    + split; [done|]. by intros [_ [u [=]]].
Qed.

Lemma Login_refused_witness :
  let uc := mkUserUseCase
              (fun _ : Credentials =>
                 ret (S := unit) ("", None : option User, Some ErrInvalidCredentials)) in
  UserController_Login uc (inr (mkCredentials "alice" "wrong")) tt
  = (tt, Respond StatusUnauthorized (VH [("error", VErrorText ErrInvalidCredentials)])).
Proof.
  intros uc.
  exact (proj1 (Login_refused unit uc (mkCredentials "alice" "wrong") tt tt ""
                  None (Some ErrInvalidCredentials) eq_refl)
           ErrInvalidCredentials eq_refl).
Defined.

(** * Further properties of the password service *)

Lemma string_of_list_ascii_inj (l1 l2 : list ascii) :
  string_of_list_ascii l1 = string_of_list_ascii l2 -> l1 = l2.
Proof.
  intros H. apply (f_equal list_ascii_of_string) in H.
  by rewrite !list_ascii_of_string_of_list_ascii in H.
Qed.

(** X23. Hashes are salted: the hashes of one password under two different
    salts are different strings, and [CheckPassword] accepts the password
    with either of them. *)
Theorem HashPassword_salted (eks : nat -> list ascii -> list ascii -> option (list ascii))
    (salt1 salt2 : list ascii) (password hashed1 hashed2 : string) :
  length salt1 = 22 -> length salt2 = 22 -> salt1 <> salt2 ->
  HashPassword eks (Ok salt1) password = (hashed1, None) ->
  HashPassword eks (Ok salt2) password = (hashed2, None) ->
  hashed1 <> hashed2
  /\ CheckPassword eks hashed1 password = true
  /\ CheckPassword eks hashed2 password = true.
Proof.
  intros Hlen1 Hlen2 Hne Hhash1 Hhash2.
  destruct (HashPassword_Ok _ _ _ _ Hhash1) as (d1 & _ & Hd1 & ->).
  destruct (HashPassword_Ok _ _ _ _ Hhash2) as (d2 & _ & Hd2 & ->).
  split; [|split].
  - intros Heq. apply string_of_list_ascii_inj in Heq.
    unfold hashedHash in Heq; simpl in Heq.
    rewrite (fit_exact 22 salt1), (fit_exact 22 salt2) in Heq by done.
    injection Heq as Heq. apply app_inj_1 in Heq as [Hs _]; [done|congruence].
  - apply CheckPassword_hashed; [done|]. by rewrite Hd1.
  - apply CheckPassword_hashed; [done|]. by rewrite Hd2.
Qed.

Lemma HashPassword_salted_witness :
  fst (HashPassword sampleCore (Ok sampleSalt) "pw123456")
  <> fst (HashPassword sampleCore (Ok (list_ascii_of_string "abcdefghijklmnopqrstuv"))
            "pw123456").
Proof.
  exact (proj1 (HashPassword_salted sampleCore sampleSalt
                  (list_ascii_of_string "abcdefghijklmnopqrstuv") "pw123456"
                  (fst (HashPassword sampleCore (Ok sampleSalt) "pw123456"))
                  (fst (HashPassword sampleCore
                          (Ok (list_ascii_of_string "abcdefghijklmnopqrstuv")) "pw123456"))
                  eq_refl eq_refl ltac:(discriminate) eq_refl eq_refl)).
Defined.

(** X24. When hashing fails, [HashPassword] returns the empty string next
    to the error: for a password of more than 72 bytes the error is
    [ErrPasswordTooLong], and a failed read of the random source is passed
    on.  [CheckPassword] refuses the empty string, and any stored value of
    fewer than 59 bytes, for every password. *)
Theorem HashPassword_failure (eks : nat -> list ascii -> list ascii -> option (list ascii))
    (rnd : result (list ascii)) (password : string) :
  (forall (hashed : string) (e : error),
     HashPassword eks rnd password = (hashed, Some e) -> hashed = "")
  /\ (72 < length (list_ascii_of_string password) ->
      HashPassword eks rnd password = ("", Some ErrPasswordTooLong))
  /\ (forall e : error,
        rnd = Err e -> length (list_ascii_of_string password) <= 72 ->
        HashPassword eks rnd password = ("", Some e))
  /\ (forall stored plain : string,
        length (list_ascii_of_string stored) < 59 ->
        CheckPassword eks stored plain = false).
Proof.
  split; [|split; [|split]].
  - intros hashed e. unfold HashPassword.
    destruct (GenerateFromPassword eks rnd _ DefaultCost); [done|]. by intros [= <- _].
  - intros Hlong. unfold HashPassword, GenerateFromPassword.
    by destruct (Nat.ltb_spec 72 (length (list_ascii_of_string password))); [|lia].
  - intros e -> Hlen. unfold HashPassword, GenerateFromPassword.
    by destruct (Nat.ltb_spec 72 (length (list_ascii_of_string password))); [lia|].
  - intros stored plain Hshort. unfold CheckPassword, CompareHashAndPassword, newFromHash.
    by destruct (Nat.ltb_spec (length (list_ascii_of_string stored)) 59); [|lia].
Qed.

Lemma HashPassword_failure_witness :
  HashPassword sampleCore (Ok sampleSalt) longerPassword = ("", Some ErrPasswordTooLong)
  /\ CheckPassword sampleCore "pw123456" "pw123456" = false.
Proof.
  pose proof (HashPassword_failure sampleCore (Ok sampleSalt) longerPassword)
    as (_ & Hlong & _ & Hshort).
  split.
  - apply Hlong. apply Nat.ltb_lt. reflexivity.
  - apply Hshort. apply Nat.ltb_lt. reflexivity.
Defined.

(** * A further property of [CreateTask] *)

(** X25. [CreateTask] never replaces a stored task: every document stays
    as it is and the users are untouched; a call that returns a task has made
    the collection one document larger, a call that returns an error has
    stored nothing, and if the generated identifier is already in use the
    driver's duplicate-key error is returned as it is. *)
Theorem CreateTask_stores_one_or_nothing (task : Task) (w : World) :
  (forall (id : ObjectID) (t : Task),
     tasks w !! id = Some t -> tasks (fst (CreateTask task w)) !! id = Some t)
  /\ users (fst (CreateTask task w)) = users w
  /\ (forall t : Task,
        snd (CreateTask task w) = Ok t ->
        size (tasks (fst (CreateTask task w))) = S (size (tasks w)))
  /\ (forall e : error,
        snd (CreateTask task w) = Err e -> tasks (fst (CreateTask task w)) = tasks w)
  /\ (forall stored : Task,
        tasks w !! oid_gen w (oid_used w) = Some stored ->
        nextCallFails w = None ->
        snd (CreateTask task w) = Err ErrDuplicateKey).
Proof.
  rewrite CreateTask_any; simpl.
  destruct (nextCallFails w) as [msg|].
  { repeat split; try done. }
  destruct (tasks w !! oid_gen w (oid_used w)) as [stored|] eqn:Hgen; simpl.
  { repeat split; try done. }
  split; [|split; [done|split; [|split; [done|done]]]].
  - intros id t Ht. rewrite lookup_insert_ne; [done|]. congruence.
  - intros t _. by apply map_size_insert_None.
Qed.

Lemma CreateTask_stores_one_or_nothing_witness :
  let w := mkWorld {[sampleID := sampleTask]} ∅ true [] [] (fun _ => sampleID) 0 in
  snd (CreateTask (mkTask 0 "other" "" 0 "pending") w) = Err ErrDuplicateKey.
Proof.
  intros w.
  exact (proj2 (proj2 (proj2 (proj2
           (CreateTask_stores_one_or_nothing (mkTask 0 "other" "" 0 "pending") w))))
           sampleTask eq_refl eq_refl).
Defined.
